(** * The shopping-cart store of [src/hooks/useCart.tsx]

    A shallow embedding of the [CartProvider] component: its state
    initialiser, its helpers ([checkStockAvailability], [fetchProductData],
    [saveToLocalStorage]) and the three operations it publishes
    ([addProduct], [removeProduct], [updateProductAmount]).

    The browser and the network are explicit: the HTTP server is an
    environment of responses, [localStorage] is a finite map from keys to
    texts, the React state is a field of the world, and every call to a
    collaborator ([api.get], [toast.error], [localStorage.setItem],
    [setCart]) is recorded in a trace of events. The operations are
    written in a small monad whose computations complete normally, by
    [return;] or by an exception, so that they read as their source
    does. Numbers are the integers among the binary64 numbers of
    JavaScript: comparing them is exact, adding them rounds as IEEE 754
    rounds. Awaiting a request is the request: one call runs at a
    time. *)

From stdpp Require Import base option list strings gmap.
From Stdlib Require Import ZArith Lia Ascii DecimalString DecimalPos DecimalZ.
From Stdlib Require Import SpecFloat.

Local Open Scope Z_scope.

(** ** Numbers

    The ids and amounts of the store are JavaScript numbers, binary64
    floating-point numbers, of which the cart holds integers. An integer
    of magnitude up to 2^53 is a number; beyond, only the multiples of
    the power of two that leaves 53 significant bits are. [===], [<] and
    [>=] compare numbers exactly; [+] gives the number nearest to the
    exact sum, and of two nearest the one with an even significand. *)

(** The number nearest to an integer, ties to even. *)
Definition binary64 (x : Z) : Z :=
  let magnitude := Z.abs x in
  let dropped := Z.log2 magnitude - 52 in
  if dropped <=? 0 then x
  else
    let unit := 2 ^ dropped in
    let significand := magnitude / unit in
    let remainder := magnitude mod unit in
    let half := unit / 2 in
    let rounded :=
      if remainder <? half then significand
      else if half <? remainder then significand + 1
      else if Z.even significand then significand
      else significand + 1 in
    Z.sgn x * (rounded * unit).

(** [a + b] *)
Definition number_add (a b : Z) : Z := binary64 (a + b).

(** The same through the standard library's specification of IEEE 754
    arithmetic, at precision 53 and maximal exponent 1024: an integer as
    a binary64 number, the integer a finite binary64 number is when it
    is one, and the sum of two integers as the sum of their numbers. *)
Definition ieee_of_Z (x : Z) : spec_float :=
  binary_normalize 53 1024 x 0 false.

Definition Z_of_ieee (f : spec_float) : option Z :=
  match f with
  | S754_zero _ => Some 0
  | S754_finite negative significand exponent =>
      if 0 <=? exponent
      then Some (cond_Zopp negative (Z.pos significand * 2 ^ exponent))
      else if Z.pos significand mod 2 ^ (- exponent) =? 0
      then Some (cond_Zopp negative (Z.pos significand / 2 ^ (- exponent)))
      else None
  | _ => None
  end.

Definition ieee_add (a b : Z) : option Z :=
  Z_of_ieee (SFadd 53 1024 (ieee_of_Z a) (ieee_of_Z b)).

(** Numbers around the places where the spacing of the numbers changes,
    up to the largest. *)
Definition boundary_numbers : list Z :=
  [0; 1; 2; -1; -2; 41; 2 ^ 52; 2 ^ 53 - 2; 2 ^ 53 - 1; 2 ^ 53; 2 ^ 53 + 2;
   2 ^ 53 + 4; 2 ^ 53 + 6; 2 ^ 54 - 2; 2 ^ 54; 2 ^ 54 + 4; 2 ^ 54 + 8;
   2 ^ 54 + 12; 2 ^ 55 - 4; 2 ^ 60 + 2 ^ 8; 2 ^ 100; 2 ^ 1023;
   - 2 ^ 53 + 1; - 2 ^ 53; - 2 ^ 53 - 2; - 2 ^ 53 - 4; - 2 ^ 54; - 2 ^ 54 - 4;
   - 2 ^ 54 - 8; 2 ^ 1024 - 2 ^ 971].

(** ** Data model *)

Section CartModel.

(** The catalog fields of a product (title, price, image): the store
    copies them and never looks inside. *)
Context {Meta : Type}.

(** Modelled from the spec: the declaration of [Product] lives in
    [src/types], which the hook imports and which is not among the
    sources. A Product is { id: integer, amount: integer, plus opaque
    catalog fields }. *)
Record Product : Type := mkProduct {
  id : Z;
  amount : Z;
  meta : Meta
}.

(** [Omit<Product, 'amount'>]: what [products/:id] answers. *)
Record ProductData : Type := mkProductData {
  data_id : Z;
  data_meta : Meta
}.

(** Modelled from the spec: [Stock], of the same absent [src/types], is
    { id: integer, amount: integer }, what [stock/:id] answers. *)
Record Stock : Type := mkStock {
  stock_id : Z;
  stock_amount : Z
}.

(** [{ ...productData, amount: n }] *)
Definition with_amount (productData : ProductData) (n : Z) : Product :=
  {| id := data_id productData; amount := n; meta := data_meta productData |}.

(** [{ ...product, amount: n }] *)
Definition set_amount (product : Product) (n : Z) : Product :=
  {| id := id product; amount := n; meta := meta product |}.

(** ** Collaborators *)

(** The server behind [api]: what a GET on [stock/:id] and on
    [products/:id] answers; [None] is a request that fails, which makes
    the awaited promise reject. *)
Record Server : Type := mkServer {
  get_stock : Z -> option Stock;
  get_product : Z -> option ProductData
}.

Inductive event : Type :=
| ApiGetStock (productId : Z)
| ApiGetProduct (productId : Z)
| ToastError (message : string)
| SetItem (key value : string)
| SetCart (value : list Product).

(** The world an operation runs in: the React state [cart], the
    browser's [localStorage] and the calls made so far, oldest first. *)
Record World : Type := mkWorld {
  state : list Product;
  localStorage : gmap string string;
  trace : list event
}.

Definition log (e : event) (w : World) : World :=
  {| state := state w; localStorage := localStorage w; trace := trace w ++ [e] |}.

(** ** The monad of the operations: server reader, world state, and
    the ways a statement completes. *)

(** A statement completes normally with a value, or by [return;], or
    by throwing. *)
Inductive completion (A : Type) : Type :=
| Normal (a : A)
| Return
| Throw.
Global Arguments Normal {A} a.
Global Arguments Return {A}.
Global Arguments Throw {A}.

Definition M (A : Type) : Type := Server -> World -> completion A * World.

Definition ret {A} (a : A) : M A := fun _ w => (Normal a, w).

(** [return;] *)
Definition return_ {A} : M A := fun _ w => (Return, w).

(** [throw new Error()], and an awaited promise that rejects. *)
Definition throw {A} : M A := fun _ w => (Throw, w).

Definition bind {A B} (m : M A) (k : A -> M B) : M B :=
  fun srv w =>
    match m srv w with
    | (Normal a, w') => k a srv w'
    | (Return, w') => (Return, w')
    | (Throw, w') => (Throw, w')
    end.

(** [if (condition) { body }] *)
Definition when (condition : bool) (body : M unit) : M unit :=
  if condition then body else ret tt.

(** [try { body } catch { handler }] *)
Definition try_catch {A} (body handler : M A) : M A :=
  fun srv w =>
    match body srv w with
    | (Throw, w') => handler srv w'
    | completed => completed
    end.

(** The body of a function whose result is not used: a [return;] ends
    the call, an exception leaves it. *)
Definition function_ (body : M unit) : M unit :=
  fun srv w =>
    match body srv w with
    | (Return, w') => (Normal tt, w')
    | completed => completed
    end.

End CartModel.

Arguments Product : clear implicits.
Arguments ProductData : clear implicits.
Arguments Server : clear implicits.
Arguments event : clear implicits.
Arguments World : clear implicits.
Arguments M : clear implicits.

Declare Scope cart_scope.
Delimit Scope cart_scope with cart.
Notation "x <- m ;; k" := (bind m (fun x => k))
  (at level 100, m at next level, right associativity) : cart_scope.
Notation "m ;;; k" := (bind m (fun _ => k))
  (at level 100, right associativity) : cart_scope.

Section CartProvider.

Context {Meta : Type}.

(** [JSON.stringify] and [JSON.parse] are the platform's. A parsed text
    is typed [any] and used as a [Product[]] without a check, so the
    parser's answer is either a sequence of products or some other
    value; [None] is the [SyntaxError] the parser throws. *)
Inductive JSONValue : Type :=
| ProductArray (products : list (Product Meta))
| OtherValue.

Variable JSON_stringify : list (Product Meta) -> string.
Variable JSON_parse : string -> option JSONValue.

Definition LOCAL_STORAGE_CART_KEY : string := "@RocketShoes:cart".

(** *** Primitive calls *)

Definition api_get_stock (productId : Z) : M Meta Stock :=
  fun srv w =>
    match get_stock srv productId with
    | Some response => (Normal response, log (ApiGetStock productId) w)
    | None => (Throw, log (ApiGetStock productId) w)
    end.

Definition api_get_product (productId : Z) : M Meta (ProductData Meta) :=
  fun srv w =>
    match get_product srv productId with
    | Some response => (Normal response, log (ApiGetProduct productId) w)
    | None => (Throw, log (ApiGetProduct productId) w)
    end.

Definition toast_error (message : string) : M Meta unit :=
  fun _ w => (Normal tt, log (ToastError message) w).

(** [localStorage.setItem(key, value)]; the store is taken to have room
    for the text. *)
Definition localStorage_setItem (key value : string) : M Meta unit :=
  fun _ w =>
    (Normal tt,
     {| state := state w;
        localStorage := <[key := value]> (localStorage w);
        trace := trace w ++ [SetItem key value] |}).

(** [setCart(value)] *)
Definition setCart (value : list (Product Meta)) : M Meta unit :=
  fun _ w =>
    (Normal tt,
     {| state := value;
        localStorage := localStorage w;
        trace := trace w ++ [SetCart value] |}).

(** [setCart(current => ...)]: the updater receives the state as it is
    when the update is applied, and may itself have effects. *)
Definition setCart_with (updater : list (Product Meta) -> M Meta (list (Product Meta)))
  : M Meta unit :=
  fun srv w =>
    match updater (state w) srv w with
    | (Normal value, w') => setCart value srv w'
    | (Return, w') => (Return, w')
    | (Throw, w') => (Throw, w')
    end.

(** *** The state initialiser of [useState] *)

(** [if (storagedCart)]: [null] and the empty text are falsy. *)
Definition truthy (s : string) : bool :=
  match s with
  | EmptyString => false
  | String _ _ => true
  end.

Definition initialCart (storage : gmap string string) : completion JSONValue :=
  let storagedCart := storage !! LOCAL_STORAGE_CART_KEY in
  match storagedCart with
  | Some text =>
      if truthy text then
        match JSON_parse text with
        | Some value => Normal value
        | None => Throw
        end
      else Normal (ProductArray [])
  | None => Normal (ProductArray [])
  end.

(** *** Helpers *)

Definition checkStockAvailability (productId requiredQuantity : Z) : M Meta bool :=
  (checkStockResponseData <- api_get_stock productId ;;
   let stockQuantity := stock_amount checkStockResponseData in
   ret (bool_decide (stockQuantity >= requiredQuantity)))%cart.

Definition fetchProductData (productId : Z) : M Meta (ProductData Meta) :=
  (productData <- api_get_product productId ;;
   ret productData)%cart.

Definition saveToLocalStorage (cartToSave : list (Product Meta)) : M Meta unit :=
  let stringifiedCart := JSON_stringify cartToSave in
  localStorage_setItem LOCAL_STORAGE_CART_KEY stringifiedCart.

(** *** The three operations

    Each is a closure over [cart], the state of the render that created
    it. *)

Variable cart : list (Product Meta).

Definition addProduct (productId : Z) : M Meta unit :=
  function_
    (try_catch
       (let productAlreadyInCart :=
          find (fun product => id product =? productId) cart in
        updatedCart <-
          match productAlreadyInCart with
          | None =>
              isAvailableInStock <- checkStockAvailability productId 1 ;;
              when (negb isAvailableInStock)
                (toast_error "Quantidade solicitada fora de estoque" ;;;
                 return_) ;;;
              productData <- fetchProductData productId ;;
              ret (cart ++ [with_amount productData 1])
          | Some found =>
              let currentQuantity := amount found in
              isAvailableInStock <-
                checkStockAvailability productId (number_add currentQuantity 1) ;;
              when (negb isAvailableInStock)
                (toast_error "Quantidade solicitada fora de estoque" ;;;
                 return_) ;;;
              ret (map (fun product =>
                          if id product =? productId
                          then set_amount product (number_add (amount product) 1)
                          else product) cart)
          end ;;
        saveToLocalStorage updatedCart ;;;
        setCart updatedCart)
       (toast_error "Erro na adição do produto"))%cart.

Definition removeProduct (productId : Z) : M Meta unit :=
  function_
    (try_catch
       (let isProductInCart :=
          bool_decide
            (is_Some (find (fun product => id product =? productId) cart)) in
        when (negb isProductInCart) throw ;;;
        let updatedCart :=
          List.filter (fun product => negb (id product =? productId)) cart in
        saveToLocalStorage updatedCart ;;;
        setCart updatedCart)
       (toast_error "Erro na remoção do produto"))%cart.

Definition updateProductAmount (productId amount : Z) : M Meta unit :=
  function_
    (try_catch
       (when (bool_decide (amount < 1)) return_ ;;;
        let isProductInCart :=
          find (fun product => id product =? productId) cart in
        when (negb (bool_decide (is_Some isProductInCart))) throw ;;;
        isAvailableInStock <- checkStockAvailability productId amount ;;
        when (negb isAvailableInStock)
          (toast_error "Quantidade solicitada fora de estoque" ;;;
           return_) ;;;
        setCart_with (fun current =>
          let updatedCart :=
            map (fun product =>
                   if id product =? productId
                   then set_amount product amount
                   else product) current in
          saveToLocalStorage updatedCart ;;;
          ret updatedCart))
       (toast_error "Erro na alteração de quantidade do produto"))%cart.

End CartProvider.

Arguments JSONValue : clear implicits.

(** ** Running an operation *)

Section Running.

Context {Meta : Type}.
Variable JSON_stringify : list (Product Meta) -> string.

(** The world an action leaves behind. *)
Definition exec {A} (m : M Meta A) (srv : Server Meta) (w : World Meta) : World Meta :=
  snd (m srv w).

(** The calls an action added to the trace. *)
Definition emitted (w w' : World Meta) : list (event Meta) :=
  drop (length (trace w)) (trace w').

Definition is_SetItem (e : event Meta) : bool :=
  match e with SetItem _ _ => true | _ => false end.

Definition is_SetCart (e : event Meta) : bool :=
  match e with SetCart _ => true | _ => false end.

Definition is_ToastError (e : event Meta) : bool :=
  match e with ToastError _ => true | _ => false end.

Definition is_ApiGetStock (e : event Meta) : bool :=
  match e with ApiGetStock _ => true | _ => false end.

(** How many of the calls an action made satisfy [p]. *)
Definition count_calls (p : event Meta -> bool) (w w' : World Meta) : nat :=
  length (List.filter p (emitted w w')).

(** What the presentation layer can do with the context value. *)
Inductive operation : Type :=
| AddProduct (productId : Z)
| RemoveProduct (productId : Z)
| UpdateProductAmount (productId amount : Z).

(** A call made on the context value of the current render: the
    operation's [cart] is the state at the time of the call. *)
Definition call (op : operation) : M Meta unit :=
  fun srv w =>
    match op with
    | AddProduct productId =>
        addProduct JSON_stringify (state w) productId srv w
    | RemoveProduct productId =>
        removeProduct JSON_stringify (state w) productId srv w
    | UpdateProductAmount productId amount =>
        updateProductAmount JSON_stringify (state w) productId amount srv w
    end.

(** *** The invariants of the data model *)

(** I1 *)
Definition amounts_positive (cart : list (Product Meta)) : Prop :=
  Forall (fun product => amount product >= 1) cart.

(** I2 *)
Definition ids_unique (cart : list (Product Meta)) : Prop :=
  NoDup (map id cart).

Definition invariants (cart : list (Product Meta)) : Prop :=
  amounts_positive cart /\ ids_unique cart.

(** The precondition of [addProduct]: the catalog resolves [productId]
    to the product it denotes, that is, what [products/:id] answers
    carries that id. *)
Definition resolves (srv : Server Meta) (productId : Z) : Prop :=
  match get_product srv productId with
  | Some productData => data_id productData = productId
  | None => True
  end.

Definition precondition (srv : Server Meta) (op : operation) : Prop :=
  match op with
  | AddProduct productId => resolves srv productId
  | _ => True
  end.

(** The worlds a sequence of calls leads to; the server may answer
    differently from one call to the next. *)
Inductive reachable (w0 : World Meta) : World Meta -> Prop :=
| reachable_start : reachable w0 w0
| reachable_call w srv op :
    reachable w0 w ->
    precondition srv op ->
    reachable w0 (exec (call op) srv w).

(** The two ways a call can end. It either rejects, leaving the cart
    and the store as they were and calling neither [setItem] nor
    [setCart], or it commits one cart: after its other calls it writes
    the cart to the store and then publishes it. *)
Definition quiet (e : event Meta) : Prop :=
  is_SetItem e = false /\ is_SetCart e = false.

Inductive outcome (w : World Meta) : World Meta -> Prop :=
| rejected evs :
    Forall quiet evs ->
    outcome w {| state := state w;
                 localStorage := localStorage w;
                 trace := trace w ++ evs |}
| committed evs updatedCart :
    Forall quiet evs ->
    outcome w {| state := updatedCart;
                 localStorage :=
                   <[LOCAL_STORAGE_CART_KEY := JSON_stringify updatedCart]>
                     (localStorage w);
                 trace := trace w ++ evs ++
                   [SetItem LOCAL_STORAGE_CART_KEY (JSON_stringify updatedCart);
                    SetCart updatedCart] |}.

Definition is_ApiGetProduct (e : event Meta) : bool :=
  match e with ApiGetProduct _ => true | _ => false end.

(** The product an operation is about. *)
Definition target (op : operation) : Z :=
  match op with
  | AddProduct productId => productId
  | RemoveProduct productId => productId
  | UpdateProductAmount productId _ => productId
  end.

(** The store holds the text of the current cart. *)
Definition snapshot_current (w : World Meta) : Prop :=
  localStorage w !! LOCAL_STORAGE_CART_KEY = Some (JSON_stringify (state w)).

(** The quantity [addProduct] asks the stock for. *)
Definition required_quantity (cart : list (Product Meta)) (productId : Z) : Z :=
  match find (fun product => id product =? productId) cart with
  | Some found => number_add (amount found) 1
  | None => 1
  end.

End Running.

(** ** A concrete store: the shoe catalog and a JSON codec

    An instance of the parameters above, used to run the operations on
    concrete worlds: the catalog fields of the shop, and a printer and a
    parser for the JSON texts the store writes. It stands in for the
    platform's JSON on the texts of the scenarios: numbers are integer
    literals, the printer leaves control characters as they are, and
    the lexer reads no other escapes than those of the quote and of the
    backslash. *)

Module RocketShoes.

Record Shoe : Type := mkShoe {
  title : string;
  price : Z;
  image : string
}.

#[local] Unset Elimination Schemes.
Inductive json : Type :=
| JNull
| JBool (b : bool)
| JNumber (n : Z)
| JString (s : string)
| JArray (items : list json)
| JObject (members : list (string * json)).

#[local] Set Elimination Schemes.

(** *** Printing *)

Definition quote : ascii := ascii_of_nat 34.
Definition backslash : ascii := ascii_of_nat 92.

Fixpoint escape (s : string) : string :=
  match s with
  | EmptyString => EmptyString
  | String c rest =>
      if (Ascii.eqb c quote || Ascii.eqb c backslash)%bool
      then String backslash (String c (escape rest))
      else String c (escape rest)
  end.

Definition print_string (s : string) : string :=
  String quote (escape s +:+ String quote EmptyString).

Definition print_number (n : Z) : string :=
  NilZero.string_of_int (Z.to_int n).

Definition print_member (key : string) (value : string) : string :=
  print_string key +:+ ":" +:+ value.

Definition print_product (product : Product Shoe) : string :=
  "{" +:+ print_member "id" (print_number (id product))
  +:+ "," +:+ print_member "title" (print_string (title (meta product)))
  +:+ "," +:+ print_member "price" (print_number (price (meta product)))
  +:+ "," +:+ print_member "image" (print_string (image (meta product)))
  +:+ "," +:+ print_member "amount" (print_number (amount product))
  +:+ "}".

Fixpoint join (sep : string) (parts : list string) : string :=
  match parts with
  | [] => EmptyString
  | [part] => part
  | part :: rest => part +:+ sep +:+ join sep rest
  end.

Definition JSON_stringify (cart : list (Product Shoe)) : string :=
  "[" +:+ join "," (map print_product cart) +:+ "]".

(** *** Lexing *)

Inductive token : Type :=
| TLBracket | TRBracket | TLBrace | TRBrace | TColon | TComma
| TString (s : string)
| TNumber (n : Z)
| TWord (s : string).

Inductive lexer_state : Type :=
| Between
| InString (acc : string)
| Escaped (acc : string)
| InNumber (acc : string)
| InWord (acc : string).

Definition is_digit (c : ascii) : bool :=
  ((48 <=? nat_of_ascii c) && (nat_of_ascii c <=? 57))%nat.

Definition is_letter (c : ascii) : bool :=
  ((97 <=? nat_of_ascii c) && (nat_of_ascii c <=? 122))%nat.

Definition is_space (c : ascii) : bool :=
  let n := nat_of_ascii c in
  ((n =? 32) || (n =? 9) || (n =? 10) || (n =? 13))%nat.

Definition snoc (acc : string) (c : ascii) : string :=
  acc +:+ String c EmptyString.

Definition number_token (acc : string) : option token :=
  match NilZero.int_of_string acc with
  | Some n => Some (TNumber (Z.of_int n))
  | None => None
  end.

(** The token a character stands for on its own, if any. *)
Definition punctuation (c : ascii) : option token :=
  let n := nat_of_ascii c in
  if (n =? 91)%nat then Some TLBracket
  else if (n =? 93)%nat then Some TRBracket
  else if (n =? 123)%nat then Some TLBrace
  else if (n =? 125)%nat then Some TRBrace
  else if (n =? 58)%nat then Some TColon
  else if (n =? 44)%nat then Some TComma
  else None.

(** What starts at [c] when no token is open. *)
Definition start (c : ascii) (continue : lexer_state -> option (list token))
  : option (list token) :=
  if is_space c then continue Between
  else if Ascii.eqb c quote then continue (InString EmptyString)
  else if (is_digit c || (nat_of_ascii c =? 45)%nat)%bool
  then continue (InNumber (String c EmptyString))
  else if is_letter c then continue (InWord (String c EmptyString))
  else match punctuation c with
       | Some t => cons t <$> continue Between
       | None => None
       end.

Fixpoint lex (st : lexer_state) (s : string) : option (list token) :=
  match s with
  | EmptyString =>
      match st with
      | Between => Some []
      | InString _ | Escaped _ => None
      | InNumber acc => (fun t => [t]) <$> number_token acc
      | InWord acc => Some [TWord acc]
      end
  | String c rest =>
      match st with
      | Between => start c (fun st' => lex st' rest)
      | InString acc =>
          if Ascii.eqb c quote then cons (TString acc) <$> lex Between rest
          else if Ascii.eqb c backslash then lex (Escaped acc) rest
          else lex (InString (snoc acc c)) rest
      | Escaped acc =>
          if (Ascii.eqb c quote || Ascii.eqb c backslash)%bool
          then lex (InString (snoc acc c)) rest
          else None
      | InNumber acc =>
          if is_digit c then lex (InNumber (snoc acc c)) rest
          else
            match number_token acc with
            | Some t => cons t <$> start c (fun st' => lex st' rest)
            | None => None
            end
      | InWord acc =>
          if is_letter c then lex (InWord (snoc acc c)) rest
          else cons (TWord acc) <$> start c (fun st' => lex st' rest)
      end
  end.

(** *** Parsing *)

Definition word_value (s : string) : option json :=
  if String.eqb s "null" then Some JNull
  else if String.eqb s "true" then Some (JBool true)
  else if String.eqb s "false" then Some (JBool false)
  else None.

Fixpoint parse_value (fuel : nat) (ts : list token) : option (json * list token) :=
  match fuel with
  | O => None
  | S fuel =>
      match ts with
      | TString s :: ts => Some (JString s, ts)
      | TNumber n :: ts => Some (JNumber n, ts)
      | TWord s :: ts => (fun v => (v, ts)) <$> word_value s
      | TLBracket :: TRBracket :: ts => Some (JArray [], ts)
      | TLBracket :: ts =>
          '(items, ts) ← parse_items fuel ts; Some (JArray items, ts)
      | TLBrace :: TRBrace :: ts => Some (JObject [], ts)
      | TLBrace :: ts =>
          '(members, ts) ← parse_members fuel ts; Some (JObject members, ts)
      | _ => None
      end
  end
with parse_items (fuel : nat) (ts : list token) : option (list json * list token) :=
  match fuel with
  | O => None
  | S fuel =>
      '(item, ts) ← parse_value fuel ts;
      match ts with
      | TRBracket :: ts => Some ([item], ts)
      | TComma :: ts =>
          '(items, ts) ← parse_items fuel ts; Some (item :: items, ts)
      | _ => None
      end
  end
with parse_members (fuel : nat) (ts : list token)
  : option (list (string * json) * list token) :=
  match fuel with
  | O => None
  | S fuel =>
      match ts with
      | TString key :: TColon :: ts =>
          '(value, ts) ← parse_value fuel ts;
          match ts with
          | TRBrace :: ts => Some ([(key, value)], ts)
          | TComma :: ts =>
              '(members, ts) ← parse_members fuel ts;
              Some ((key, value) :: members, ts)
          | _ => None
          end
      | _ => None
      end
  end.

Definition parse (text : string) : option json :=
  ts ← lex Between text;
  '(value, rest) ← parse_value (S (length ts)) ts;
  match rest with
  | [] => Some value
  | _ => None
  end.

(** *** Reading a value as a cart *)

(** [object.key]: the last member of that name wins. *)
Fixpoint member (key : string) (members : list (string * json)) : option json :=
  match members with
  | [] => None
  | (k, v) :: rest =>
      match member key rest with
      | Some v' => Some v'
      | None => if String.eqb k key then Some v else None
      end
  end.

Definition as_number (v : json) : option Z :=
  match v with JNumber n => Some n | _ => None end.

Definition as_string (v : json) : option string :=
  match v with JString s => Some s | _ => None end.

Definition as_product (v : json) : option (Product Shoe) :=
  match v with
  | JObject members =>
      i ← member "id" members ≫= as_number;
      t ← member "title" members ≫= as_string;
      p ← member "price" members ≫= as_number;
      img ← member "image" members ≫= as_string;
      a ← member "amount" members ≫= as_number;
      Some {| id := i; amount := a;
              meta := {| title := t; price := p; image := img |} |}
  | _ => None
  end.

Definition as_cart (v : json) : JSONValue Shoe :=
  match v with
  | JArray items =>
      match mapM as_product items with
      | Some products => ProductArray products
      | None => OtherValue
      end
  | _ => OtherValue
  end.

Definition JSON_parse (text : string) : option (JSONValue Shoe) :=
  as_cart <$> parse text.

(** *** What the printer's text lexes and parses to *)

Fixpoint all_digits (s : string) : bool :=
  match s with
  | EmptyString => true
  | String c rest => is_digit c && all_digits rest
  end.

Definition product_tokens (product : Product Shoe) : list token :=
  [TLBrace;
   TString "id"; TColon; TNumber (id product); TComma;
   TString "title"; TColon; TString (title (meta product)); TComma;
   TString "price"; TColon; TNumber (price (meta product)); TComma;
   TString "image"; TColon; TString (image (meta product)); TComma;
   TString "amount"; TColon; TNumber (amount product);
   TRBrace].

(** The tokens of a non-empty sequence of products, up to and including
    the closing bracket. *)
Fixpoint items_tokens (first : Product Shoe) (others : list (Product Shoe))
  : list token :=
  match others with
  | [] => product_tokens first ++ [TRBracket]
  | next :: others => product_tokens first ++ TComma :: items_tokens next others
  end.

Definition cart_tokens (cart : list (Product Shoe)) : list token :=
  match cart with
  | [] => [TLBracket; TRBracket]
  | first :: others => TLBracket :: items_tokens first others
  end.

Definition product_json (product : Product Shoe) : json :=
  JObject
    [("id", JNumber (id product));
     ("title", JString (title (meta product)));
     ("price", JNumber (price (meta product)));
     ("image", JString (image (meta product)));
     ("amount", JNumber (amount product))].

(** *** A catalog and a few worlds *)

Definition runner : Shoe :=
  {| title := "Tenis de Caminhada Leve Confortavel";
     price := 17990;
     image := "modulo-redux/tenis1.jpg" |}.

Definition sneaker : Shoe :=
  {| title := "Tenis VR Caminhada Confortavel Detalhes Couro Masculino";
     price := 13990;
     image := "modulo-redux/tenis2.jpg" |}.

(** A server with [units] of product 5 and three of product 7 in stock,
    and nothing else. *)
Definition server (units : Z) : Server Shoe :=
  {| get_stock := fun productId =>
       if productId =? 5 then Some {| stock_id := 5; stock_amount := units |}
       else if productId =? 7 then Some {| stock_id := 7; stock_amount := 3 |}
       else None;
     get_product := fun productId =>
       if productId =? 5 then Some {| data_id := 5; data_meta := runner |}
       else if productId =? 7 then Some {| data_id := 7; data_meta := sneaker |}
       else None |}.

(** A server whose stock answers, three of each product, and whose
    catalog is down. *)
Definition catalog_down : Server Shoe :=
  {| get_stock := fun productId =>
       Some {| stock_id := productId; stock_amount := 3 |};
     get_product := fun _ => None |}.

(** A server that is down. *)
Definition offline : Server Shoe :=
  {| get_stock := fun _ => None; get_product := fun _ => None |}.

Definition empty_world : World Shoe :=
  {| state := []; localStorage := ∅; trace := [] |}.

Definition world_of (cart : list (Product Shoe)) : World Shoe :=
  {| state := cart; localStorage := ∅; trace := [] |}.

Definition one_runner : list (Product Shoe) :=
  [ {| id := 5; amount := 1; meta := runner |} ].

Definition two_runners : list (Product Shoe) :=
  [ {| id := 5; amount := 2; meta := runner |} ].

Definition one_sneaker : list (Product Shoe) :=
  [ {| id := 7; amount := 1; meta := sneaker |} ].

Definition trainer : Shoe :=
  {| title := "Tenis Adidas Duramo Lite 2.0";
     price := 21990;
     image := "modulo-redux/tenis3.jpg" |}.

Definition three_shoes : list (Product Shoe) :=
  [ {| id := 5; amount := 2; meta := runner |};
    {| id := 7; amount := 1; meta := sneaker |};
    {| id := 3; amount := 1; meta := trainer |} ].

(** A cart with 2^53 runners, the first amount that adding 1 does not
    change. *)
Definition pallet : list (Product Shoe) :=
  [ {| id := 5; amount := 2 ^ 53; meta := runner |} ].

Definition both : list (Product Shoe) :=
  [ {| id := 5; amount := 2; meta := runner |};
    {| id := 7; amount := 1; meta := sneaker |} ].

End RocketShoes.


(** ** Properties of the operations *)

Section Properties.

Context {Meta : Type}.
Variable JSON_stringify : list (Product Meta) -> string.
Variable JSON_parse : string -> option (JSONValue Meta).

Implicit Types (cart : list (Product Meta)) (product : Product Meta).
Implicit Types (w : World Meta) (srv : Server Meta) (productId : Z).

(** *** Adding numbers *)

(** Up to 2^53 in magnitude every integer is a number. *)
Lemma binary64_exact x : Z.abs x <= 2 ^ 53 -> binary64 x = x.
Proof.
  intros Hsmall. unfold binary64.
  destruct (Z.leb_spec (Z.log2 (Z.abs x) - 52) 0) as [_|Hbig]; [done|].
  assert (0 < Z.abs x) as Hpos.
  { destruct (Z.eq_dec (Z.abs x) 0) as [E|E]; [|lia].
    rewrite E in Hbig. simpl in Hbig. lia. }
  destruct (Z.log2_spec (Z.abs x) Hpos) as [Hlow _].
  assert (2 ^ 53 <= 2 ^ Z.log2 (Z.abs x)) by (apply Z.pow_le_mono_r; lia).
  assert (x = 2 ^ 53 \/ x = - 2 ^ 53) as [-> | ->] by lia; reflexivity.
Qed.

(** Rounding keeps a positive integer positive. *)
Lemma binary64_positive x : 1 <= x -> 1 <= binary64 x.
Proof.
  intros Hx. unfold binary64.
  destruct (Z.leb_spec (Z.log2 (Z.abs x) - 52) 0) as [_|Hbig]; [done|].
  rewrite (Z.abs_eq x) in * by lia. rewrite (Z.sgn_pos x) by lia.
  set (unit := 2 ^ (Z.log2 x - 52)).
  assert (0 < unit) as Hunit by (apply Z.pow_pos_nonneg; lia).
  assert (unit <= x) as Hle.
  { destruct (Z.log2_spec x) as [Hlow _]; [lia|].
    etrans; [|exact Hlow]. apply Z.pow_le_mono_r; lia. }
  assert (1 <= x / unit) as Hsig by (apply Z.div_le_lower_bound; lia).
  repeat case_match; nia.
Qed.

Lemma number_add_safe a :
  - 2 ^ 53 < a < 2 ^ 53 -> number_add a 1 = a + 1.
Proof. intros Ha. apply binary64_exact. lia. Qed.

Lemma number_add_positive a : 1 <= a -> 1 <= number_add a 1.
Proof. intros Ha. apply binary64_positive. lia. Qed.

(** On the numbers where the spacing changes the rounding above is the
    standard library's: each of them is a number, and adding 1 to it
    gives what IEEE 754 addition gives. *)
Example binary64_agrees_with_ieee :
  forallb
    (fun x =>
       bool_decide (binary64 x = x /\ Z_of_ieee (ieee_of_Z x) = Some x /\
                    ieee_add x 1 = Some (number_add x 1)))
    boundary_numbers = true.
Proof. vm_compute. reflexivity. Qed.

(** Where integers are no numbers the nearest number is the same, ties
    going to the even significand. *)
Example binary64_rounds_as_ieee :
  forallb
    (fun x => bool_decide (Z_of_ieee (ieee_of_Z x) = Some (binary64 x)))
    [2 ^ 53 + 1; 2 ^ 53 + 3; 2 ^ 54 + 1; 2 ^ 54 + 2; 2 ^ 54 + 3; 2 ^ 54 + 5;
     2 ^ 54 + 6; - (2 ^ 54 + 6); - 2 ^ 53 - 1; 2 ^ 60 + 3;
     2 ^ 1024 - 2 ^ 971 + 1] = true.
Proof. vm_compute. reflexivity. Qed.

(** *** Looking a product up by its id *)

Lemma find_id_None cart productId :
  find (fun product => id product =? productId) cart = None <->
  productId ∉ map id cart.
Proof.
  induction cart as [|p cart IH]; simpl.
  - split; [intros _ H; inversion H | done].
  - destruct (Z.eqb_spec (id p) productId) as [E|E].
    + split; [done | intros H; exfalso; apply H; rewrite E; left].
    + rewrite IH, not_elem_of_cons. split; [by split | by intros [_ ?]].
Qed.

Lemma find_id_Some cart productId found :
  find (fun product => id product =? productId) cart = Some found ->
  found ∈ cart /\ id found = productId.
Proof.
  intros H. apply find_some in H as [Hin Heq].
  split; [by apply list_elem_of_In | lia].
Qed.

(** In a cart without duplicate ids, the product of a given id is the
    one [find] returns. *)
Lemma find_id_unique before product after :
  ids_unique (before ++ product :: after) ->
  find (fun p => id p =? id product) (before ++ product :: after) = Some product.
Proof.
  unfold ids_unique. induction before as [|q before IH]; simpl; intros Hnd.
  - by rewrite Z.eqb_refl.
  - apply NoDup_cons in Hnd as [Hq Hnd].
    destruct (Z.eqb_spec (id q) (id product)) as [E|E]; [|by apply IH].
    exfalso. apply Hq. rewrite E, map_app. simpl.
    apply elem_of_app. right. left.
Qed.

(** *** What [map] and [filter] do to a cart with unique ids *)

Lemma map_id_update (f : Product Meta -> Z) productId cart :
  map id (map (fun product =>
                 if id product =? productId
                 then set_amount product (f product)
                 else product) cart) = map id cart.
Proof.
  induction cart as [|p cart IH]; simpl; [done|].
  rewrite IH. by destruct (id p =? productId).
Qed.

Lemma map_update_absent (f : Product Meta -> Z) productId cart :
  productId ∉ map id cart ->
  map (fun product =>
         if id product =? productId
         then set_amount product (f product)
         else product) cart = cart.
Proof.
  induction cart as [|p cart IH]; simpl; [done|].
  rewrite not_elem_of_cons. intros [Hne Hnot].
  rewrite IH by done.
  destruct (Z.eqb_spec (id p) productId); [congruence | done].
Qed.

Lemma map_update_unique (f : Product Meta -> Z) before product after :
  ids_unique (before ++ product :: after) ->
  map (fun p =>
         if id p =? id product then set_amount p (f p) else p)
      (before ++ product :: after)
  = before ++ set_amount product (f product) :: after.
Proof.
  unfold ids_unique. rewrite map_app. simpl. intros Hnd.
  apply NoDup_app in Hnd as (_ & Hdisj & Hnd).
  apply NoDup_cons in Hnd as [Hafter _].
  rewrite map_app. simpl. rewrite Z.eqb_refl.
  rewrite !map_update_absent; [done | done |].
  intros Hin. apply (Hdisj _ Hin). left.
Qed.

Lemma filter_absent productId cart :
  productId ∉ map id cart ->
  List.filter (fun product => negb (id product =? productId)) cart = cart.
Proof.
  induction cart as [|p cart IH]; simpl; [done|].
  rewrite not_elem_of_cons. intros [Hne Hnot].
  destruct (Z.eqb_spec (id p) productId); [congruence|].
  simpl. by rewrite IH.
Qed.

Lemma filter_unique before product after :
  ids_unique (before ++ product :: after) ->
  List.filter (fun p => negb (id p =? id product)) (before ++ product :: after)
  = before ++ after.
Proof.
  unfold ids_unique. rewrite map_app. simpl. intros Hnd.
  apply NoDup_app in Hnd as (_ & Hdisj & Hnd).
  apply NoDup_cons in Hnd as [Hafter _].
  rewrite List.filter_app. simpl. rewrite Z.eqb_refl. simpl.
  rewrite !filter_absent; [done | done |].
  intros Hin. apply (Hdisj _ Hin). left.
Qed.

(** *** The invariants under the three updates *)

Lemma invariants_append cart (productData : ProductData Meta) :
  invariants cart ->
  data_id productData ∉ map id cart ->
  invariants (cart ++ [with_amount productData 1]).
Proof.
  intros [Hpos Huniq] Hnew. split.
  - apply Forall_app. split; [done|]. apply Forall_singleton. simpl. lia.
  - unfold ids_unique in *. rewrite map_app. simpl.
    apply NoDup_app. split_and!; [done | | apply NoDup_singleton].
    intros x Hx ->%list_elem_of_singleton. done.
Qed.

Lemma invariants_update (f : Product Meta -> Z) productId cart :
  (forall product, product ∈ cart -> amount product >= 1 -> f product >= 1) ->
  invariants cart ->
  invariants (map (fun product =>
                     if id product =? productId
                     then set_amount product (f product)
                     else product) cart).
Proof.
  intros Hf [Hpos Huniq]. split.
  - unfold amounts_positive in *. rewrite Forall_forall in Hpos.
    apply Forall_forall. intros q Hq.
    apply list_elem_of_In, in_map_iff in Hq as (p & <- & Hp).
    apply list_elem_of_In in Hp.
    destruct (id p =? productId); simpl; auto.
  - unfold ids_unique. by rewrite map_id_update.
Qed.

Lemma invariants_filter productId cart :
  invariants cart ->
  invariants (List.filter (fun product => negb (id product =? productId)) cart).
Proof.
  intros [Hpos Huniq]. unfold invariants, amounts_positive, ids_unique in *.
  induction cart as [|p cart IH]; simpl; [done|].
  apply Forall_cons in Hpos as [Hp Hpos].
  simpl in Huniq. apply NoDup_cons in Huniq as [Hnotin Huniq].
  destruct (IH Hpos Huniq) as [IH1 IH2].
  destruct (negb (id p =? productId)); simpl; [|done].
  split; [by apply Forall_cons|].
  apply NoDup_cons. split; [|done].
  intros Hin. apply Hnotin.
  apply list_elem_of_In, in_map_iff in Hin as (q & Hq & Hin).
  apply filter_In in Hin as [Hin _].
  apply list_elem_of_In, in_map_iff. eauto.
Qed.

(** *** The operations, case by case *)

Ltac run_operation :=
  cbv beta iota zeta delta
    [addProduct removeProduct updateProductAmount function_ try_catch bind
     when checkStockAvailability fetchProductData saveToLocalStorage
     api_get_stock api_get_product toast_error setCart_with setCart
     localStorage_setItem ret return_ throw log];
  simpl.

Ltac decide_stock :=
  first [ rewrite bool_decide_eq_true_2 by lia
        | rewrite bool_decide_eq_false_2 by lia ];
  simpl.

Lemma addProduct_rejected cart productId srv w stock :
  get_stock srv productId = Some stock ->
  stock_amount stock < required_quantity cart productId ->
  addProduct JSON_stringify cart productId srv w
  = (Normal tt,
     {| state := state w;
        localStorage := localStorage w;
        trace := trace w ++
          [ApiGetStock productId;
           ToastError "Quantidade solicitada fora de estoque"] |}).
Proof.
  unfold required_quantity. intros Hstock Hlt. run_operation.
  destruct (find _ cart) as [found|]; simpl; rewrite Hstock; simpl;
    decide_stock; by rewrite <- app_assoc.
Qed.

Lemma addProduct_appended cart productId srv w stock productData :
  find (fun product => id product =? productId) cart = None ->
  get_stock srv productId = Some stock ->
  stock_amount stock >= 1 ->
  get_product srv productId = Some productData ->
  let updatedCart := cart ++ [with_amount productData 1] in
  addProduct JSON_stringify cart productId srv w
  = (Normal tt,
     {| state := updatedCart;
        localStorage :=
          <[LOCAL_STORAGE_CART_KEY := JSON_stringify updatedCart]> (localStorage w);
        trace := trace w ++
          [ApiGetStock productId;
           ApiGetProduct productId;
           SetItem LOCAL_STORAGE_CART_KEY (JSON_stringify updatedCart);
           SetCart updatedCart] |}).
Proof.
  intros Hfind Hstock Hge Hdata. run_operation.
  rewrite Hfind, Hstock. simpl. decide_stock. rewrite Hdata. simpl.
  by rewrite <- !app_assoc.
Qed.

Lemma addProduct_incremented cart productId srv w stock found :
  find (fun product => id product =? productId) cart = Some found ->
  get_stock srv productId = Some stock ->
  stock_amount stock >= number_add (amount found) 1 ->
  let updatedCart :=
    map (fun product =>
           if id product =? productId
           then set_amount product (number_add (amount product) 1)
           else product) cart in
  addProduct JSON_stringify cart productId srv w
  = (Normal tt,
     {| state := updatedCart;
        localStorage :=
          <[LOCAL_STORAGE_CART_KEY := JSON_stringify updatedCart]> (localStorage w);
        trace := trace w ++
          [ApiGetStock productId;
           SetItem LOCAL_STORAGE_CART_KEY (JSON_stringify updatedCart);
           SetCart updatedCart] |}).
Proof.
  intros Hfind Hstock Hge. run_operation.
  rewrite Hfind, Hstock. simpl. decide_stock.
  by rewrite <- !app_assoc.
Qed.

Lemma addProduct_stock_failure cart productId srv w :
  get_stock srv productId = None ->
  addProduct JSON_stringify cart productId srv w
  = (Normal tt,
     {| state := state w;
        localStorage := localStorage w;
        trace := trace w ++
          [ApiGetStock productId; ToastError "Erro na adição do produto"] |}).
Proof.
  intros Hstock. run_operation.
  destruct (find _ cart); simpl; rewrite Hstock; simpl;
    by rewrite <- app_assoc.
Qed.

Lemma addProduct_catalog_failure cart productId srv w stock :
  find (fun product => id product =? productId) cart = None ->
  get_stock srv productId = Some stock ->
  stock_amount stock >= 1 ->
  get_product srv productId = None ->
  addProduct JSON_stringify cart productId srv w
  = (Normal tt,
     {| state := state w;
        localStorage := localStorage w;
        trace := trace w ++
          [ApiGetStock productId;
           ApiGetProduct productId;
           ToastError "Erro na adição do produto"] |}).
Proof.
  intros Hfind Hstock Hge Hdata. run_operation.
  rewrite Hfind, Hstock. simpl. decide_stock. rewrite Hdata. simpl.
  by rewrite <- !app_assoc.
Qed.

Lemma removeProduct_removed cart productId srv w found :
  find (fun product => id product =? productId) cart = Some found ->
  let updatedCart :=
    List.filter (fun product => negb (id product =? productId)) cart in
  removeProduct JSON_stringify cart productId srv w
  = (Normal tt,
     {| state := updatedCart;
        localStorage :=
          <[LOCAL_STORAGE_CART_KEY := JSON_stringify updatedCart]> (localStorage w);
        trace := trace w ++
          [SetItem LOCAL_STORAGE_CART_KEY (JSON_stringify updatedCart);
           SetCart updatedCart] |}).
Proof.
  intros Hfind. run_operation. rewrite Hfind.
  rewrite bool_decide_eq_true_2 by eauto. simpl.
  by rewrite <- !app_assoc.
Qed.

Lemma removeProduct_not_found cart productId srv w :
  find (fun product => id product =? productId) cart = None ->
  removeProduct JSON_stringify cart productId srv w
  = (Normal tt,
     {| state := state w;
        localStorage := localStorage w;
        trace := trace w ++ [ToastError "Erro na remoção do produto"] |}).
Proof.
  intros Hfind. run_operation. rewrite Hfind.
  rewrite bool_decide_eq_false_2; [done|]. by intros [? ?].
Qed.

Lemma updateProductAmount_ignored cart productId amount srv w :
  amount < 1 ->
  updateProductAmount JSON_stringify cart productId amount srv w = (Normal tt, w).
Proof.
  intros Hlt. run_operation. by rewrite bool_decide_eq_true_2 by done.
Qed.

Lemma updateProductAmount_not_found cart productId amount srv w :
  amount >= 1 ->
  find (fun product => id product =? productId) cart = None ->
  updateProductAmount JSON_stringify cart productId amount srv w
  = (Normal tt,
     {| state := state w;
        localStorage := localStorage w;
        trace := trace w ++
          [ToastError "Erro na alteração de quantidade do produto"] |}).
Proof.
  intros Hge Hfind. run_operation.
  rewrite bool_decide_eq_false_2 by lia. by rewrite Hfind.
Qed.

Lemma updateProductAmount_stock_failure cart productId amount srv w found :
  amount >= 1 ->
  find (fun product => id product =? productId) cart = Some found ->
  get_stock srv productId = None ->
  updateProductAmount JSON_stringify cart productId amount srv w
  = (Normal tt,
     {| state := state w;
        localStorage := localStorage w;
        trace := trace w ++
          [ApiGetStock productId;
           ToastError "Erro na alteração de quantidade do produto"] |}).
Proof.
  intros Hge Hfind Hstock. run_operation.
  rewrite bool_decide_eq_false_2 by lia. rewrite Hfind, Hstock. simpl.
  by rewrite <- app_assoc.
Qed.

Lemma updateProductAmount_rejected cart productId amount srv w found stock :
  amount >= 1 ->
  find (fun product => id product =? productId) cart = Some found ->
  get_stock srv productId = Some stock ->
  stock_amount stock < amount ->
  updateProductAmount JSON_stringify cart productId amount srv w
  = (Normal tt,
     {| state := state w;
        localStorage := localStorage w;
        trace := trace w ++
          [ApiGetStock productId;
           ToastError "Quantidade solicitada fora de estoque"] |}).
Proof.
  intros Hge Hfind Hstock Hlt. run_operation.
  rewrite bool_decide_eq_false_2 by lia. rewrite Hfind, Hstock. simpl.
  decide_stock. by rewrite <- app_assoc.
Qed.

Lemma updateProductAmount_updated cart productId amount srv w found stock :
  amount >= 1 ->
  find (fun product => id product =? productId) cart = Some found ->
  get_stock srv productId = Some stock ->
  stock_amount stock >= amount ->
  let updatedCart :=
    map (fun product =>
           if id product =? productId
           then set_amount product amount
           else product) (state w) in
  updateProductAmount JSON_stringify cart productId amount srv w
  = (Normal tt,
     {| state := updatedCart;
        localStorage :=
          <[LOCAL_STORAGE_CART_KEY := JSON_stringify updatedCart]> (localStorage w);
        trace := trace w ++
          [ApiGetStock productId;
           SetItem LOCAL_STORAGE_CART_KEY (JSON_stringify updatedCart);
           SetCart updatedCart] |}).
Proof.
  intros Hge Hfind Hstock Hstk. run_operation.
  rewrite bool_decide_eq_false_2 by lia. rewrite Hfind, Hstock. simpl.
  decide_stock. by rewrite <- !app_assoc.
Qed.

(** *** The calls an operation adds to the trace *)

Lemma emitted_app w (t : list (event Meta)) (evs : list (event Meta)) st ls :
  t = trace w ->
  emitted w {| state := st; localStorage := ls; trace := t ++ evs |} = evs.
Proof. intros ->. unfold emitted. simpl. apply drop_app_length. Qed.

Lemma emitted_refl w : emitted w w = [].
Proof. unfold emitted. apply drop_all. Qed.

Ltac quiet_events :=
  repeat (apply Forall_cons; split; [by split|]); apply Forall_nil_2.

Tactic Notation "is_rejected" uconstr(evs) :=
  refine (rejected _ _ evs _); quiet_events.
Tactic Notation "is_committed" uconstr(evs) :=
  refine (committed _ _ evs _ _); quiet_events.

Lemma outcome_unchanged w : outcome JSON_stringify w w.
Proof.
  destruct w as [st ls tr].
  replace tr with (tr ++ []) at 2 by apply app_nil_r.
  is_rejected [].
Qed.

Lemma addProduct_outcome productId srv w :
  outcome JSON_stringify w (exec (addProduct JSON_stringify (state w) productId) srv w).
Proof.
  unfold exec.
  destruct (get_stock srv productId) as [stock|] eqn:Hstock;
    [|rewrite addProduct_stock_failure by done; is_rejected
        [ApiGetStock productId; ToastError "Erro na adição do produto"]].
  destruct (decide (stock_amount stock < required_quantity (state w) productId))
    as [Hlt|Hge];
    [erewrite addProduct_rejected by done; is_rejected
       [ApiGetStock productId;
        ToastError "Quantidade solicitada fora de estoque"]|].
  unfold required_quantity in Hge.
  destruct (find _ (state w)) as [found|] eqn:Hfind.
  - erewrite addProduct_incremented by (done || lia).
    is_committed [ApiGetStock productId].
  - destruct (get_product srv productId) as [productData|] eqn:Hdata.
    + erewrite addProduct_appended by (done || lia).
      is_committed [ApiGetStock productId; ApiGetProduct productId].
    + erewrite addProduct_catalog_failure by (done || lia).
      is_rejected [ApiGetStock productId; ApiGetProduct productId;
                   ToastError "Erro na adição do produto"].
Qed.

Lemma removeProduct_outcome productId srv w :
  outcome JSON_stringify w (exec (removeProduct JSON_stringify (state w) productId) srv w).
Proof.
  unfold exec.
  destruct (find (fun product => id product =? productId) (state w))
    as [found|] eqn:Hfind.
  - erewrite removeProduct_removed by done. is_committed [].
  - rewrite removeProduct_not_found by done.
    is_rejected [ToastError "Erro na remoção do produto"].
Qed.

Lemma updateProductAmount_outcome productId amount srv w :
  outcome JSON_stringify w
    (exec (updateProductAmount JSON_stringify (state w) productId amount) srv w).
Proof.
  unfold exec.
  destruct (decide (amount < 1)) as [Hlt|Hge];
    [rewrite updateProductAmount_ignored by done; apply outcome_unchanged|].
  destruct (find (fun product => id product =? productId) (state w))
    as [found|] eqn:Hfind;
    [|rewrite updateProductAmount_not_found by (done || lia); is_rejected
        [ToastError "Erro na alteração de quantidade do produto"]].
  destruct (get_stock srv productId) as [stock|] eqn:Hstock;
    [|erewrite updateProductAmount_stock_failure by (done || lia); is_rejected
        [ApiGetStock productId;
         ToastError "Erro na alteração de quantidade do produto"]].
  destruct (decide (stock_amount stock < amount)) as [Hlt|Hok].
  - erewrite updateProductAmount_rejected by (done || lia).
    is_rejected [ApiGetStock productId;
                 ToastError "Quantidade solicitada fora de estoque"].
  - erewrite updateProductAmount_updated by (done || lia).
    is_committed [ApiGetStock productId].
Qed.

Lemma call_outcome op srv w :
  outcome JSON_stringify w (exec (call JSON_stringify op) srv w).
Proof.
  destruct op as [productId|productId|productId amount]; unfold exec, call.
  - apply addProduct_outcome.
  - apply removeProduct_outcome.
  - apply updateProductAmount_outcome.
Qed.

(** *** Each operation keeps the invariants

    The lemmas hold for any [cart] the operation closed over, not only
    the current state. *)

Lemma addProduct_invariants cart productId srv w :
  invariants cart ->
  invariants (state w) ->
  resolves srv productId ->
  invariants (state (exec (addProduct JSON_stringify cart productId) srv w)).
Proof.
  intros Hcart Hstate Hres. unfold exec.
  destruct (get_stock srv productId) as [stock|] eqn:Hstock;
    [|by rewrite addProduct_stock_failure].
  destruct (decide (stock_amount stock < required_quantity cart productId))
    as [Hlt|Hge]; [by erewrite addProduct_rejected|].
  unfold required_quantity in Hge.
  destruct (find _ cart) as [found|] eqn:Hfind.
  - erewrite addProduct_incremented by (done || lia). simpl.
    apply (invariants_update (fun product => number_add (amount product) 1));
      [|done].
    intros product _ Hpositive. apply Z.le_ge, number_add_positive. lia.
  - destruct (get_product srv productId) as [productData|] eqn:Hdata.
    + erewrite addProduct_appended by (done || lia). simpl.
      apply invariants_append; [done|].
      unfold resolves in Hres. rewrite Hdata in Hres. rewrite Hres.
      by apply find_id_None.
    + by erewrite addProduct_catalog_failure by (done || lia).
Qed.

Lemma removeProduct_invariants cart productId srv w :
  invariants cart ->
  invariants (state w) ->
  invariants (state (exec (removeProduct JSON_stringify cart productId) srv w)).
Proof.
  intros Hcart Hstate. unfold exec.
  destruct (find (fun product => id product =? productId) cart)
    as [found|] eqn:Hfind.
  - erewrite removeProduct_removed by done. simpl.
    by apply invariants_filter.
  - by rewrite removeProduct_not_found.
Qed.

Lemma updateProductAmount_invariants cart productId amount srv w :
  invariants (state w) ->
  invariants
    (state (exec (updateProductAmount JSON_stringify cart productId amount) srv w)).
Proof.
  intros Hstate. unfold exec.
  destruct (decide (amount < 1)) as [Hlt|Hge];
    [by rewrite updateProductAmount_ignored|].
  destruct (find (fun product => id product =? productId) cart)
    as [found|] eqn:Hfind;
    [|by rewrite updateProductAmount_not_found by (done || lia)].
  destruct (get_stock srv productId) as [stock|] eqn:Hstock;
    [|by erewrite updateProductAmount_stock_failure by (done || lia)].
  destruct (decide (stock_amount stock < amount)) as [Hlt|Hok].
  - by erewrite updateProductAmount_rejected by (done || lia).
  - erewrite updateProductAmount_updated by (done || lia). simpl.
    apply (invariants_update (fun _ => amount)); [|done].
    intros; lia.
Qed.

Lemma call_invariants op srv w :
  invariants (state w) ->
  precondition srv op ->
  invariants (state (exec (call JSON_stringify op) srv w)).
Proof.
  intros Hinv Hpre.
  destruct op as [productId|productId|productId amount]; unfold exec, call.
  - by apply addProduct_invariants.
  - by apply removeProduct_invariants.
  - by apply updateProductAmount_invariants.
Qed.

(** *** What a committed cart leaves in the store *)

Lemma filter_quiet (p : event Meta -> bool) (evs : list (event Meta)) :
  (forall e, e ∈ evs -> p e = false) -> List.filter p evs = [].
Proof.
  induction evs as [|e evs IH]; intros Hp; [done|]. simpl.
  rewrite (Hp e) by left. apply IH. intros e' He'. apply Hp. by right.
Qed.

Lemma outcome_committed w w' :
  outcome JSON_stringify w w' ->
  Exists (fun e => is_SetItem e = true \/ is_SetCart e = true) (emitted w w') ->
  List.filter is_SetItem (emitted w w') =
    [SetItem LOCAL_STORAGE_CART_KEY (JSON_stringify (state w'))] /\
  List.filter is_SetCart (emitted w w') = [SetCart (state w')] /\
  localStorage w' !! LOCAL_STORAGE_CART_KEY = Some (JSON_stringify (state w')).
Proof.
  intros [evs Hquiet|evs updatedCart Hquiet]; rewrite emitted_app by done;
    rewrite Forall_forall in Hquiet.
  - intros (e & He & Hwrote)%Exists_exists. exfalso.
    destruct (Hquiet e He) as [H1 H2]. destruct Hwrote; congruence.
  - intros _. simpl. rewrite !List.filter_app. simpl.
    rewrite !filter_quiet by (intros e He; by destruct (Hquiet e He)).
    split_and!; [done | done | apply lookup_insert_eq].
Qed.

Lemma stored_reads_back (storage : gmap string string) cart :
  storage !! LOCAL_STORAGE_CART_KEY = Some (JSON_stringify cart) ->
  truthy (JSON_stringify cart) = true ->
  JSON_parse (JSON_stringify cart) = Some (ProductArray cart) ->
  initialCart JSON_parse storage = Normal (ProductArray cart).
Proof.
  intros Hstored Htruthy Hparse. unfold initialCart.
  by rewrite Hstored, Htruthy, Hparse.
Qed.

(** ** The claims *)

(** C1. From a world whose cart has only amounts of at least 1 and no
    two products of the same id, every world reached by calls of
    [addProduct], [removeProduct] and [updateProductAmount] has such a
    cart again, and so has the world each of the three operations leads
    to from there. The catalog is taken to answer [products/:id] with
    the product of that id, which is the precondition of [addProduct]. *)
Theorem invariants_preserved w0 w :
  invariants (state w0) ->
  reachable JSON_stringify w0 w ->
  invariants (state w) /\
  forall srv op,
    precondition srv op ->
    invariants (state (exec (call JSON_stringify op) srv w)).
Proof.
  intros Hinv Hreach.
  assert (invariants (state w)) as Hw.
  { induction Hreach as [|w srv op Hreach IH Hpre]; [done|].
    by apply call_invariants. }
  split; [done|]. intros srv op Hpre. by apply call_invariants.
Qed.

(** C2. When [productId] is not in the cart, the stock answers an
    amount of at least 1 and the catalog resolves [productId],
    [addProduct] publishes the cart with one product more: the old
    products, as they were and where they were, followed by the
    catalog's product with amount 1. *)
Theorem addProduct_appends productId srv w stock productData :
  productId ∉ map id (state w) ->
  get_stock srv productId = Some stock ->
  stock_amount stock >= 1 ->
  get_product srv productId = Some productData ->
  exists w',
    call JSON_stringify (AddProduct productId) srv w = (Normal tt, w') /\
    state w' = state w ++
      [{| id := data_id productData; amount := 1;
          meta := data_meta productData |}] /\
    length (state w') = S (length (state w)) /\
    (forall i product,
       state w !! i = Some product -> state w' !! i = Some product) /\
    state w' !! length (state w) =
      Some {| id := data_id productData; amount := 1;
              meta := data_meta productData |}.
Proof.
  intros Habsent Hstock Hge Hdata. apply find_id_None in Habsent.
  eexists. split; [by eapply addProduct_appended|]. simpl.
  split_and!.
  - done.
  - rewrite length_app. simpl. lia.
  - intros i product Hi. by apply lookup_app_l_Some.
  - by rewrite list_lookup_middle.
Qed.

(** C3, as amended. When the cart, whose ids are unique, holds a
    product of id [productId] with amount k and the stock answers at
    least the sum k + 1 as JavaScript computes it, [addProduct]
    publishes the same cart with that product's amount replaced by that
    sum: its id and catalog fields, and every product before and after
    it, are as they were. The sum is k + 1 whenever k is below 2^53 in
    magnitude. *)
Theorem addProduct_increments productId srv w stock before product after :
  ids_unique (state w) ->
  state w = before ++ product :: after ->
  id product = productId ->
  get_stock srv productId = Some stock ->
  stock_amount stock >= number_add (amount product) 1 ->
  (exists w',
     call JSON_stringify (AddProduct productId) srv w = (Normal tt, w') /\
     state w' = before ++
       {| id := id product; amount := number_add (amount product) 1;
          meta := meta product |} :: after) /\
  (- 2 ^ 53 < amount product < 2 ^ 53 ->
   number_add (amount product) 1 = amount product + 1).
Proof.
  intros Huniq Hcart <- Hstock Hge. rewrite Hcart in Huniq.
  split; [|apply number_add_safe].
  eexists. split.
  - unfold call. eapply addProduct_incremented; [|done..].
    rewrite Hcart. by apply find_id_unique.
  - simpl. rewrite Hcart.
    apply (map_update_unique (fun p => number_add (amount p) 1)). done.
Qed.

(** C4, as amended. When the stock answers less than the required
    quantity (1 for a product that is not in the cart; for one that is,
    the sum of its amount and 1 as JavaScript computes it, which is the
    amount plus 1 whenever the amount is below 2^53 in magnitude),
    [addProduct] leaves the cart and the store as they were, calls
    neither [setItem] nor [setCart], and calls [toast.error] once. *)
Theorem addProduct_out_of_stock productId srv w stock :
  get_stock srv productId = Some stock ->
  stock_amount stock < required_quantity (state w) productId ->
  (exists w',
     call JSON_stringify (AddProduct productId) srv w = (Normal tt, w') /\
     state w' = state w /\
     localStorage w' = localStorage w /\
     emitted w w' =
       [ApiGetStock productId;
        ToastError "Quantidade solicitada fora de estoque"] /\
     count_calls is_SetItem w w' = 0%nat /\
     count_calls is_SetCart w w' = 0%nat /\
     count_calls is_ToastError w w' = 1%nat) /\
  (productId ∉ map id (state w) ->
   required_quantity (state w) productId = 1) /\
  (forall found,
     find (fun product => id product =? productId) (state w) = Some found ->
     required_quantity (state w) productId = number_add (amount found) 1 /\
     (- 2 ^ 53 < amount found < 2 ^ 53 ->
      required_quantity (state w) productId = amount found + 1)).
Proof.
  intros Hstock Hlt. split_and!.
  - eexists. split; [by eapply addProduct_rejected|].
    unfold count_calls. rewrite emitted_app by done. done.
  - intros Habsent%find_id_None. unfold required_quantity. by rewrite Habsent.
  - intros found Hfind. unfold required_quantity. rewrite Hfind.
    split; [done | apply number_add_safe].
Qed.

(** C5. On a cart with unique ids, [removeProduct] of an id that is in
    the cart publishes and stores the cart without that product, one
    shorter, the products before and after it as they were; of an id
    that is not in the cart it leaves the cart and the store as they
    were, calls neither [setItem] nor [setCart], and calls
    [toast.error] once. *)
Theorem removeProduct_removes productId srv w :
  ids_unique (state w) ->
  exists w',
    call JSON_stringify (RemoveProduct productId) srv w = (Normal tt, w') /\
    (forall before product after,
       state w = before ++ product :: after ->
       id product = productId ->
       state w' = before ++ after /\
       S (length (state w')) = length (state w) /\
       (productId ∉ map id (state w')) /\
       localStorage w' =
         <[LOCAL_STORAGE_CART_KEY := JSON_stringify (before ++ after)]>
           (localStorage w)) /\
    (productId ∉ map id (state w) ->
       state w' = state w /\
       localStorage w' = localStorage w /\
       emitted w w' = [ToastError "Erro na remoção do produto"] /\
       count_calls is_SetItem w w' = 0%nat /\
       count_calls is_SetCart w w' = 0%nat /\
       count_calls is_ToastError w w' = 1%nat).
Proof.
  intros Huniq. unfold call.
  destruct (find (fun product => id product =? productId) (state w))
    as [found|] eqn:Hfind.
  - eexists. split; [by eapply removeProduct_removed|]. simpl. split.
    + intros before product after Hcart <-. rewrite Hcart in *.
      rewrite filter_unique by done.
      split_and!; [done | rewrite !length_app; simpl; lia | | done].
      unfold ids_unique in Huniq. rewrite map_app in *. simpl in Huniq.
      apply NoDup_app in Huniq as (_ & Hdisj & Hnd).
      apply NoDup_cons in Hnd as [Hafter _].
      intros [Hin|Hin]%elem_of_app; [|done].
      apply (Hdisj _ Hin). left.
    + intros Habsent. apply find_id_None in Habsent. congruence.
  - eexists. split; [by eapply removeProduct_not_found|]. simpl. split.
    + intros before product after Hcart <-.
      apply find_id_None in Hfind. exfalso. apply Hfind.
      rewrite Hcart, map_app. apply elem_of_app. right. left.
    + intros _. unfold count_calls. rewrite emitted_app by done. done.
Qed.

(** C6. With an amount below 1, [updateProductAmount] returns at once:
    the world it leaves is the world it found, cart, store and trace of
    calls alike, so that it asks no stock, writes nothing, publishes
    nothing and notifies nobody. *)
Theorem updateProductAmount_below_one cart productId amount srv w :
  amount < 1 ->
  updateProductAmount JSON_stringify cart productId amount srv w = (Normal tt, w) /\
  forall w',
    w' = exec (updateProductAmount JSON_stringify cart productId amount) srv w ->
    state w' = state w /\
    localStorage w' = localStorage w /\
    emitted w w' = [] /\
    count_calls is_ApiGetStock w w' = 0%nat /\
    count_calls is_SetItem w w' = 0%nat /\
    count_calls is_SetCart w w' = 0%nat /\
    count_calls is_ToastError w w' = 0%nat.
Proof.
  intros Hlt. split; [by apply updateProductAmount_ignored|].
  intros w' ->. unfold exec, count_calls.
  rewrite updateProductAmount_ignored by done. simpl.
  by rewrite emitted_refl.
Qed.

(** C7. For any cart holding a product of id [productId], an amount of
    at least 1 and a stock that answers at least that amount,
    [updateProductAmount] publishes the cart in which the products of
    that id have the requested amount, their other fields and all other
    products being as they were and where they were; it writes that
    cart to the store and then publishes it. *)
Theorem updateProductAmount_sets productId amount srv w stock :
  productId ∈ map id (state w) ->
  amount >= 1 ->
  get_stock srv productId = Some stock ->
  stock_amount stock >= amount ->
  exists w',
    call JSON_stringify (UpdateProductAmount productId amount) srv w
    = (Normal tt, w') /\
    length (state w') = length (state w) /\
    (forall i product,
       state w !! i = Some product ->
       state w' !! i =
         Some (if decide (id product = productId)
               then {| id := id product; amount := amount;
                       meta := meta product |}
               else product)) /\
    localStorage w' =
      <[LOCAL_STORAGE_CART_KEY := JSON_stringify (state w')]> (localStorage w) /\
    emitted w w' =
      [ApiGetStock productId;
       SetItem LOCAL_STORAGE_CART_KEY (JSON_stringify (state w'));
       SetCart (state w')].
Proof.
  intros Hin Hge Hstock Hok.
  destruct (find (fun product => id product =? productId) (state w))
    as [found|] eqn:Hfind; [|by apply find_id_None in Hfind].
  eexists. split; [by eapply updateProductAmount_updated|]. simpl.
  split_and!.
  - by rewrite length_map.
  - intros i product Hi. rewrite list_lookup_fmap, Hi. simpl.
    destruct (Z.eqb_spec (id product) productId);
      [by rewrite decide_True | by rewrite decide_False].
  - done.
  - by rewrite emitted_app.
Qed.

(** C8. When an operation writes to the store or publishes a cart, it
    does both, once each and with the same cart: the text left under
    the cart's key is the serialisation of the published state, and,
    [JSON.parse] reading that text back as the cart it was made from,
    an initialisation from the store yields exactly the state. *)
Theorem persisted_snapshot_is_state op srv w w' :
  w' = exec (call JSON_stringify op) srv w ->
  Exists (fun e => is_SetItem e = true \/ is_SetCart e = true) (emitted w w') ->
  truthy (JSON_stringify (state w')) = true ->
  JSON_parse (JSON_stringify (state w')) = Some (ProductArray (state w')) ->
  List.filter is_SetItem (emitted w w') =
    [SetItem LOCAL_STORAGE_CART_KEY (JSON_stringify (state w'))] /\
  List.filter is_SetCart (emitted w w') = [SetCart (state w')] /\
  localStorage w' !! LOCAL_STORAGE_CART_KEY = Some (JSON_stringify (state w')) /\
  initialCart JSON_parse (localStorage w') = Normal (ProductArray (state w')).
Proof.
  intros -> Hwrote Htruthy Hparse.
  destruct (outcome_committed _ _ (call_outcome op srv w) Hwrote)
    as (Hitems & Hcarts & Hstored).
  split_and!; [done..|].
  by apply stored_reads_back.
Qed.

(** C9, as amended. The initial cart is read from the store: it is
    the empty cart when nothing is stored under the cart's key or the
    stored text is empty; otherwise it is whatever [JSON.parse] makes of
    the text, unchecked, and when [JSON.parse] throws the
    initialisation throws with it. *)
Theorem initialCart_reads_store (storage : gmap string string) :
  (storage !! LOCAL_STORAGE_CART_KEY = None ->
     initialCart JSON_parse storage = Normal (ProductArray [])) /\
  (storage !! LOCAL_STORAGE_CART_KEY = Some EmptyString ->
     initialCart JSON_parse storage = Normal (ProductArray [])) /\
  (forall text value,
     storage !! LOCAL_STORAGE_CART_KEY = Some text ->
     text <> EmptyString ->
     JSON_parse text = Some value ->
     initialCart JSON_parse storage = Normal value) /\
  (forall text,
     storage !! LOCAL_STORAGE_CART_KEY = Some text ->
     text <> EmptyString ->
     JSON_parse text = None ->
     initialCart JSON_parse storage = Throw).
Proof.
  unfold initialCart. split_and!.
  - by intros ->.
  - by intros ->.
  - intros text value -> Hne ->. by destruct text.
  - intros text -> Hne ->. by destruct text.
Qed.

(** C10. When the cart holds a product of id [productId], the amount
    is at least 1 and the request for the stock fails,
    [updateProductAmount] leaves the cart and the store as they were and
    calls [toast.error] once, with the message it also gives for a
    product that is not in the cart. *)
Theorem updateProductAmount_stock_unreachable productId amount srv w :
  productId ∈ map id (state w) ->
  amount >= 1 ->
  get_stock srv productId = None ->
  exists w' message,
    call JSON_stringify (UpdateProductAmount productId amount) srv w
    = (Normal tt, w') /\
    state w' = state w /\
    localStorage w' = localStorage w /\
    emitted w w' = [ApiGetStock productId; ToastError message] /\
    count_calls is_ToastError w w' = 1%nat /\
    message = "Erro na alteração de quantidade do produto"%string /\
    forall srv0 w0,
      productId ∉ map id (state w0) ->
      emitted w0
        (exec (call JSON_stringify (UpdateProductAmount productId amount)) srv0 w0)
      = [ToastError message].
Proof.
  intros Hin Hge Hstock.
  destruct (find (fun product => id product =? productId) (state w))
    as [found|] eqn:Hfind; [|by apply find_id_None in Hfind].
  eexists. eexists.
  split; [by eapply updateProductAmount_stock_failure|]. simpl.
  unfold count_calls. rewrite emitted_app by done.
  split_and!; try done.
  intros srv0 w0 Habsent. apply find_id_None in Habsent.
  unfold exec, call. rewrite updateProductAmount_not_found by done.
  simpl. by rewrite emitted_app.
Qed.

(** ** Further properties of the operations *)

(** *** What leaves a call *)

(** X1. No exception leaves an operation: whatever the cart it closed
    over, the server and the world, each of the three completes
    normally. *)
Theorem operations_never_throw cart productId amount srv w :
  fst (addProduct JSON_stringify cart productId srv w) = Normal tt /\
  fst (removeProduct JSON_stringify cart productId srv w) = Normal tt /\
  fst (updateProductAmount JSON_stringify cart productId amount srv w) = Normal tt.
Proof.
  split_and!.
  - destruct (get_stock srv productId) as [stock|] eqn:Hstock;
      [|by rewrite addProduct_stock_failure].
    destruct (decide (stock_amount stock < required_quantity cart productId))
      as [Hlt|Hge]; [by erewrite addProduct_rejected|].
    unfold required_quantity in Hge.
    destruct (find _ cart) as [found|] eqn:Hfind.
    + by erewrite addProduct_incremented by (done || lia).
    + destruct (get_product srv productId) as [productData|] eqn:Hdata.
      * by erewrite addProduct_appended by (done || lia).
      * by erewrite addProduct_catalog_failure by (done || lia).
  - destruct (find (fun product => id product =? productId) cart)
      as [found|] eqn:Hfind.
    + by erewrite removeProduct_removed.
    + by rewrite removeProduct_not_found.
  - destruct (decide (amount < 1)) as [Hlt|Hge];
      [by rewrite updateProductAmount_ignored|].
    destruct (find (fun product => id product =? productId) cart)
      as [found|] eqn:Hfind;
      [|by rewrite updateProductAmount_not_found by (done || lia)].
    destruct (get_stock srv productId) as [stock|] eqn:Hstock;
      [|by erewrite updateProductAmount_stock_failure by (done || lia)].
    destruct (decide (stock_amount stock < amount)) as [Hlt|Hok].
    + by erewrite updateProductAmount_rejected by (done || lia).
    + by erewrite updateProductAmount_updated by (done || lia).
Qed.

(** X2. When the request for the stock fails, [addProduct] stops there:
    it asks nothing of [products/:id], leaves the cart and the store as
    they were, and notifies once, with the message of a failed
    addition. *)
Theorem addProduct_stock_unreachable productId srv w :
  get_stock srv productId = None ->
  exists w',
    call JSON_stringify (AddProduct productId) srv w = (Normal tt, w') /\
    state w' = state w /\
    localStorage w' = localStorage w /\
    emitted w w' =
      [ApiGetStock productId; ToastError "Erro na adição do produto"] /\
    count_calls is_ApiGetProduct w w' = 0%nat.
Proof.
  intros Hstock. eexists.
  split; [by apply addProduct_stock_failure|]. simpl.
  unfold count_calls. by rewrite emitted_app.
Qed.

(** X3. When the product is new, the stock suffices and the request for
    the product fails, [addProduct] leaves the cart and the store as
    they were and notifies once, with the message of a failed
    addition. *)
Theorem addProduct_catalog_unreachable productId srv w stock :
  productId ∉ map id (state w) ->
  get_stock srv productId = Some stock ->
  stock_amount stock >= 1 ->
  get_product srv productId = None ->
  exists w',
    call JSON_stringify (AddProduct productId) srv w = (Normal tt, w') /\
    state w' = state w /\
    localStorage w' = localStorage w /\
    emitted w w' =
      [ApiGetStock productId; ApiGetProduct productId;
       ToastError "Erro na adição do produto"] /\
    count_calls is_SetItem w w' = 0%nat /\
    count_calls is_SetCart w w' = 0%nat.
Proof.
  intros Habsent%find_id_None Hstock Hge Hdata. eexists.
  split; [by eapply addProduct_catalog_failure|]. simpl.
  unfold count_calls. by rewrite emitted_app.
Qed.

(** X4. For an amount of at least 1 and an id that is not in the cart,
    [updateProductAmount] asks no stock: it leaves the cart and the
    store as they were and notifies once, with the message of a failed
    change of quantity. *)
Theorem updateProductAmount_unknown_product productId amount srv w :
  amount >= 1 ->
  productId ∉ map id (state w) ->
  exists w',
    call JSON_stringify (UpdateProductAmount productId amount) srv w
    = (Normal tt, w') /\
    state w' = state w /\
    localStorage w' = localStorage w /\
    emitted w w' = [ToastError "Erro na alteração de quantidade do produto"] /\
    count_calls is_ApiGetStock w w' = 0%nat.
Proof.
  intros Hge Habsent%find_id_None. eexists.
  split; [by apply updateProductAmount_not_found|]. simpl.
  unfold count_calls. by rewrite emitted_app.
Qed.

(** X5. For a product of the cart and an amount of at least 1 that the
    stock does not cover, [updateProductAmount] leaves the cart and the
    store as they were, writes and publishes nothing, and notifies once,
    with the out-of-stock message. *)
Theorem updateProductAmount_out_of_stock productId amount srv w stock :
  productId ∈ map id (state w) ->
  amount >= 1 ->
  get_stock srv productId = Some stock ->
  stock_amount stock < amount ->
  exists w',
    call JSON_stringify (UpdateProductAmount productId amount) srv w
    = (Normal tt, w') /\
    state w' = state w /\
    localStorage w' = localStorage w /\
    emitted w w' =
      [ApiGetStock productId;
       ToastError "Quantidade solicitada fora de estoque"] /\
    count_calls is_SetItem w w' = 0%nat /\
    count_calls is_SetCart w w' = 0%nat.
Proof.
  intros Hin Hge Hstock Hlt.
  destruct (find (fun product => id product =? productId) (state w))
    as [found|] eqn:Hfind; [|by apply find_id_None in Hfind].
  eexists. split; [by eapply updateProductAmount_rejected|]. simpl.
  unfold count_calls. by rewrite emitted_app.
Qed.

(** *** Quantities stay within the stock *)

Lemma ids_unique_eq cart p q :
  ids_unique cart -> p ∈ cart -> q ∈ cart -> id p = id q -> p = q.
Proof.
  unfold ids_unique. induction cart as [|r cart IH]; simpl; intros Hnd Hp Hq Hid.
  - by apply elem_of_nil in Hp.
  - apply NoDup_cons in Hnd as [Hr Hnd].
    assert (forall x, x ∈ cart -> id x ∈ map id cart) as Hmem.
    { intros x Hx. apply list_elem_of_In, in_map, list_elem_of_In, Hx. }
    apply elem_of_cons in Hp as [->|Hp]; apply elem_of_cons in Hq as [->|Hq].
    + done.
    + exfalso. apply Hr. rewrite Hid. by apply Hmem.
    + exfalso. apply Hr. rewrite <- Hid. by apply Hmem.
    + by apply IH.
Qed.

Lemma elem_of_update (f : Product Meta -> Z) productId cart product :
  product ∈ map (fun p => if id p =? productId then set_amount p (f p) else p) cart ->
  exists q, q ∈ cart /\ id q = id product /\
    product = (if id q =? productId then set_amount q (f q) else q).
Proof.
  intros (q & <- & Hq)%list_elem_of_In%in_map_iff.
  exists q. split; [by apply list_elem_of_In|].
  split; [|done]. by destruct (id q =? productId).
Qed.

Ltac nothing_published H :=
  exfalso; simpl in H; rewrite ?emitted_refl in H;
  rewrite ?emitted_app in H by done;
  apply Exists_exists in H as (? & H & ?);
  repeat (apply elem_of_cons in H as [->|H]; [done|]);
  by apply elem_of_nil in H.

(** X6. On a cart with unique ids, whenever [addProduct] publishes a
    cart, the amount of the product of the requested id in it is within
    the amount the stock answered. *)
Theorem addProduct_within_stock productId srv w stock w' :
  ids_unique (state w) ->
  get_stock srv productId = Some stock ->
  w' = exec (call JSON_stringify (AddProduct productId)) srv w ->
  Exists (fun e => is_SetCart e = true) (emitted w w') ->
  forall product,
    product ∈ state w' -> id product = productId ->
    amount product <= stock_amount stock.
Proof.
  intros Huniq Hstock -> Hpublished. unfold exec, call in *.
  destruct (decide (stock_amount stock < required_quantity (state w) productId))
    as [Hlt|Hge].
  { erewrite addProduct_rejected in Hpublished by done.
    nothing_published Hpublished. }
  unfold required_quantity in Hge.
  destruct (find _ (state w)) as [found|] eqn:Hfind.
  - erewrite addProduct_incremented by (done || lia). simpl.
    intros product (q & Hq & Hid & ->)%elem_of_update Hpid.
    apply find_id_Some in Hfind as [Hfound Hfid].
    assert (q = found) as -> by (apply (ids_unique_eq (state w)); congruence).
    rewrite Hfid, Z.eqb_refl. simpl. lia.
  - destruct (get_product srv productId) as [productData|] eqn:Hdata.
    + erewrite addProduct_appended by (done || lia). simpl.
      intros product [Hin| ->%list_elem_of_singleton]%elem_of_app Hpid.
      * exfalso. apply find_id_None in Hfind. apply Hfind. rewrite <- Hpid.
        apply list_elem_of_In, in_map, list_elem_of_In, Hin.
      * simpl. lia.
    + erewrite addProduct_catalog_failure in Hpublished by (done || lia).
      nothing_published Hpublished.
Qed.

(** X7. Whenever [updateProductAmount] publishes a cart, the requested
    amount is at least 1 and within the amount the stock answered, and
    every product of the requested id in the cart has that amount. *)
Theorem updateProductAmount_within_stock productId requested srv w stock w' :
  get_stock srv productId = Some stock ->
  w' = exec (call JSON_stringify (UpdateProductAmount productId requested)) srv w ->
  Exists (fun e => is_SetCart e = true) (emitted w w') ->
  1 <= requested <= stock_amount stock /\
  forall product,
    product ∈ state w' -> id product = productId ->
    amount product = requested.
Proof.
  intros Hstock -> Hpublished. unfold exec, call in *.
  destruct (decide (requested < 1)) as [Hlt|Hge].
  { rewrite updateProductAmount_ignored in Hpublished by done.
    nothing_published Hpublished. }
  destruct (find (fun product => id product =? productId) (state w))
    as [found|] eqn:Hfind.
  2: { rewrite updateProductAmount_not_found in Hpublished by (done || lia).
       nothing_published Hpublished. }
  destruct (decide (stock_amount stock < requested)) as [Hlt|Hok].
  { erewrite updateProductAmount_rejected in Hpublished by (done || lia).
    nothing_published Hpublished. }
  split; [lia|].
  erewrite updateProductAmount_updated by (done || lia). simpl.
  intros product (q & Hq & Hid & ->)%(elem_of_update (fun _ => requested)) Hpid.
  destruct (Z.eqb_spec (id q) productId); [done | congruence].
Qed.

(** *** What a call touches *)

(** X8. An operation writes under the cart's key only: whatever else
    the store holds is as it was after the call. *)
Theorem other_keys_untouched op srv w (key : string) :
  key <> LOCAL_STORAGE_CART_KEY ->
  localStorage (exec (call JSON_stringify op) srv w) !! key
  = localStorage w !! key.
Proof.
  intros Hkey.
  destruct (call_outcome op srv w) as [evs _|evs updatedCart _]; simpl; [done|].
  by rewrite lookup_insert_ne.
Qed.

(** X9. [removeProduct] never consults the server: it makes no request,
    and what it does is the same whatever the server would answer. *)
Theorem removeProduct_offline cart productId srv srv' w :
  removeProduct JSON_stringify cart productId srv w
  = removeProduct JSON_stringify cart productId srv' w /\
  count_calls is_ApiGetStock w
    (exec (removeProduct JSON_stringify cart productId) srv w) = 0%nat /\
  count_calls is_ApiGetProduct w
    (exec (removeProduct JSON_stringify cart productId) srv w) = 0%nat.
Proof.
  unfold exec, count_calls.
  destruct (find (fun product => id product =? productId) cart)
    as [found|] eqn:Hfind.
  - rewrite !(removeProduct_removed _ _ _ _ found) by done. simpl.
    by rewrite emitted_app.
  - rewrite !removeProduct_not_found by done. simpl.
    by rewrite emitted_app.
Qed.

(** X10. [addProduct] always asks the stock, first and once, for the
    requested id: nothing is cached from one call to the next. *)
Theorem addProduct_asks_stock_first cart productId srv w :
  exists rest,
    emitted w (exec (addProduct JSON_stringify cart productId) srv w)
    = ApiGetStock productId :: rest /\
    List.filter is_ApiGetStock rest = [].
Proof.
  unfold exec.
  destruct (get_stock srv productId) as [stock|] eqn:Hstock.
  2: { rewrite addProduct_stock_failure by done. simpl.
       rewrite emitted_app by done. by eexists. }
  destruct (decide (stock_amount stock < required_quantity cart productId))
    as [Hlt|Hge].
  { erewrite addProduct_rejected by done. simpl.
    rewrite emitted_app by done. by eexists. }
  unfold required_quantity in Hge.
  destruct (find _ cart) as [found|] eqn:Hfind.
  - erewrite addProduct_incremented by (done || lia). simpl.
    rewrite emitted_app by done. by eexists.
  - destruct (get_product srv productId) as [productData|] eqn:Hdata.
    + erewrite addProduct_appended by (done || lia). simpl.
      rewrite emitted_app by done. by eexists.
    + erewrite addProduct_catalog_failure by (done || lia). simpl.
      rewrite emitted_app by done. by eexists.
Qed.

(** *** How calls compose *)

(** X11. Two additions of new products made from the same render both
    build on that render's cart: each is published in its turn, and the
    second overwrites the first, whose product is in neither the final
    cart nor the store. *)
Theorem addProduct_same_render_overwrites cart first second srv1 srv2 w
    stock1 stock2 data1 data2 :
  first ∉ map id cart ->
  second ∉ map id cart ->
  get_stock srv1 first = Some stock1 -> stock_amount stock1 >= 1 ->
  get_product srv1 first = Some data1 ->
  get_stock srv2 second = Some stock2 -> stock_amount stock2 >= 1 ->
  get_product srv2 second = Some data2 ->
  forall w1 w2,
    w1 = exec (addProduct JSON_stringify cart first) srv1 w ->
    w2 = exec (addProduct JSON_stringify cart second) srv2 w1 ->
    state w1 = cart ++ [with_amount data1 1] /\
    state w2 = cart ++ [with_amount data2 1] /\
    localStorage w2 !! LOCAL_STORAGE_CART_KEY
    = Some (JSON_stringify (cart ++ [with_amount data2 1])).
Proof.
  intros H1%find_id_None H2%find_id_None Hs1 Hge1 Hd1 Hs2 Hge2 Hd2 w1 w2 -> ->.
  unfold exec.
  erewrite (addProduct_appended cart first) by done. simpl.
  erewrite (addProduct_appended cart second) by done. simpl.
  split_and!; [done | done | apply lookup_insert_eq].
Qed.

(** X12. Two changes of quantity made from the same render both take
    effect: the second is applied to the state the first left, not to
    the render's cart. *)
Theorem updateProductAmount_same_render_composes cart first second
    amount1 amount2 srv1 srv2 w stock1 stock2 :
  first ∈ map id cart ->
  second ∈ map id cart ->
  amount1 >= 1 -> amount2 >= 1 ->
  get_stock srv1 first = Some stock1 -> stock_amount stock1 >= amount1 ->
  get_stock srv2 second = Some stock2 -> stock_amount stock2 >= amount2 ->
  forall w1 w2,
    w1 = exec (updateProductAmount JSON_stringify cart first amount1) srv1 w ->
    w2 = exec (updateProductAmount JSON_stringify cart second amount2) srv2 w1 ->
    state w2 =
      map (fun product =>
             if id product =? second then set_amount product amount2 else product)
        (map (fun product =>
                if id product =? first then set_amount product amount1 else product)
           (state w)) /\
    (first <> second ->
     forall product,
       product ∈ state w2 -> id product = first -> amount product = amount1).
Proof.
  intros Hin1 Hin2 Hge1 Hge2 Hs1 Hok1 Hs2 Hok2 w1 w2 -> ->. unfold exec.
  destruct (find (fun product => id product =? first) cart)
    as [found1|] eqn:Hf1; [|by apply find_id_None in Hf1].
  destruct (find (fun product => id product =? second) cart)
    as [found2|] eqn:Hf2; [|by apply find_id_None in Hf2].
  erewrite (updateProductAmount_updated cart first) by done. simpl.
  erewrite (updateProductAmount_updated cart second) by done. simpl.
  split; [done|].
  intros Hne product (q & Hq & Hid & ->)%(elem_of_update (fun _ => amount2)) Hpid.
  destruct (Z.eqb_spec (id q) second) as [E|_]; [congruence|].
  apply (elem_of_update (fun _ => amount1)) in Hq as (r & Hr & Hidr & ->).
  destruct (Z.eqb_spec (id r) first); [done | congruence].
Qed.

Lemma filter_appended productId cart (productData : ProductData Meta) n :
  productId ∉ map id cart ->
  data_id productData = productId ->
  List.filter (fun product => negb (id product =? productId))
    (cart ++ [with_amount productData n]) = cart.
Proof.
  intros Habsent Hid. rewrite List.filter_app, filter_absent by done. simpl.
  rewrite Hid, Z.eqb_refl. simpl. apply app_nil_r.
Qed.

(** X13. Adding a product that is not in the cart and then removing it
    gives the cart back as it was, in the state and in the store. *)
Theorem addProduct_then_removeProduct productId srv srv' w stock productData :
  productId ∉ map id (state w) ->
  get_stock srv productId = Some stock ->
  stock_amount stock >= 1 ->
  get_product srv productId = Some productData ->
  data_id productData = productId ->
  forall w1 w2,
    w1 = exec (call JSON_stringify (AddProduct productId)) srv w ->
    w2 = exec (call JSON_stringify (RemoveProduct productId)) srv' w1 ->
    state w2 = state w /\
    localStorage w2 !! LOCAL_STORAGE_CART_KEY = Some (JSON_stringify (state w)).
Proof.
  intros Habsent Hstock Hge Hdata Hid w1 w2 -> ->. unfold exec, call.
  erewrite addProduct_appended by (done || by apply find_id_None). simpl.
  erewrite (removeProduct_removed _ _ _ _ (with_amount productData 1)).
  - simpl. rewrite filter_appended by done.
    split; [done | apply lookup_insert_eq].
  - destruct (find _ (state w ++ _)) as [found|] eqn:Hfind.
    + apply find_id_Some in Hfind as [[Hin| ->%list_elem_of_singleton]%elem_of_app Hfid];
        [|done].
      exfalso. apply Habsent. rewrite <- Hfid.
      apply list_elem_of_In, in_map, list_elem_of_In, Hin.
    + exfalso. apply find_id_None in Hfind. apply Hfind.
      rewrite map_app. apply elem_of_app. right. simpl. rewrite Hid. left.
Qed.

Lemma filter_removes productId cart :
  productId ∉ map id (List.filter (fun product => negb (id product =? productId)) cart).
Proof.
  intros (q & Hq & Hin)%list_elem_of_In%in_map_iff.
  apply filter_In in Hin as [_ Hne].
  rewrite Hq, Z.eqb_refl in Hne. discriminate.
Qed.

(** X14. After [removeProduct], no product of that id is in the cart,
    whatever the cart was, duplicates included; a second removal of the
    same id changes nothing and notifies. *)
Theorem removeProduct_twice productId srv srv' w :
  (productId ∉
     map id (state (exec (call JSON_stringify (RemoveProduct productId)) srv w)))
  /\
  exists w2,
    call JSON_stringify (RemoveProduct productId) srv'
      (exec (call JSON_stringify (RemoveProduct productId)) srv w)
    = (Normal tt, w2) /\
    state w2 = state (exec (call JSON_stringify (RemoveProduct productId)) srv w) /\
    localStorage w2
    = localStorage (exec (call JSON_stringify (RemoveProduct productId)) srv w) /\
    emitted (exec (call JSON_stringify (RemoveProduct productId)) srv w) w2
    = [ToastError "Erro na remoção do produto"].
Proof.
  assert (productId ∉
    map id (state (exec (call JSON_stringify (RemoveProduct productId)) srv w)))
    as Hgone.
  { unfold exec, call.
    destruct (find (fun product => id product =? productId) (state w))
      as [found|] eqn:Hfind.
    - erewrite removeProduct_removed by done. simpl. apply filter_removes.
    - rewrite removeProduct_not_found by done. simpl.
      by apply find_id_None. }
  split; [done|].
  eexists. split.
  - unfold call at 1. apply removeProduct_not_found. by apply find_id_None.
  - simpl. by rewrite emitted_app.
Qed.

Lemma map_update_twice productId n cart :
  map (fun product => if id product =? productId then set_amount product n else product)
    (map (fun product =>
            if id product =? productId then set_amount product n else product) cart)
  = map (fun product =>
           if id product =? productId then set_amount product n else product) cart.
Proof.
  rewrite map_map. apply map_ext. intros p.
  destruct (id p =? productId) eqn:E; simpl; by rewrite E.
Qed.

(** X15. Changing a quantity twice to the same amount is changing it
    once: the second call leaves the state and the store as the first
    left them. *)
Theorem updateProductAmount_idempotent productId requested srv srv' w stock stock' :
  productId ∈ map id (state w) ->
  requested >= 1 ->
  get_stock srv productId = Some stock -> stock_amount stock >= requested ->
  get_stock srv' productId = Some stock' -> stock_amount stock' >= requested ->
  forall w1 w2,
    w1 = exec (call JSON_stringify (UpdateProductAmount productId requested)) srv w ->
    w2 = exec (call JSON_stringify (UpdateProductAmount productId requested)) srv' w1 ->
    state w2 = state w1 /\ localStorage w2 = localStorage w1.
Proof.
  intros Hin Hge Hs Hok Hs' Hok' w1 w2 -> ->. unfold exec, call.
  destruct (find (fun product => id product =? productId) (state w))
    as [found|] eqn:Hfind; [|by apply find_id_None in Hfind].
  erewrite (updateProductAmount_updated (state w) productId requested srv w)
    by done.
  simpl. set (updated := map _ (state w)).
  assert (productId ∈ map id updated) as Hin'.
  { subst updated. by rewrite (map_id_update (fun _ => requested)). }
  destruct (find (fun product => id product =? productId) updated)
    as [found'|] eqn:Hfind'; [|by apply find_id_None in Hfind'].
  erewrite updateProductAmount_updated by done. simpl.
  subst updated. rewrite map_update_twice.
  split; [done | apply insert_insert_eq].
Qed.

Lemma filter_update (f : Product Meta -> Z) productId cart :
  List.filter (fun product => negb (id product =? productId))
    (map (fun product =>
            if id product =? productId then set_amount product (f product)
            else product) cart)
  = List.filter (fun product => negb (id product =? productId)) cart.
Proof.
  induction cart as [|p cart IH]; [done|]. simpl.
  destruct (id p =? productId) eqn:E; simpl; rewrite E; simpl; by rewrite IH.
Qed.

Lemma filter_twice productId cart :
  List.filter (fun product => negb (id product =? productId))
    (List.filter (fun product => negb (id product =? productId)) cart)
  = List.filter (fun product => negb (id product =? productId)) cart.
Proof.
  induction cart as [|p cart IH]; [done|]. simpl.
  destruct (negb (id p =? productId)) eqn:E; simpl; rewrite ?E; by rewrite IH.
Qed.

(** X16. An operation on one id leaves the products of every other id
    as they were and in the order they were, the catalog answering
    [products/:id] with the product of that id. *)
Theorem other_products_untouched op srv w :
  precondition srv op ->
  List.filter (fun product => negb (id product =? target op))
    (state (exec (call JSON_stringify op) srv w))
  = List.filter (fun product => negb (id product =? target op)) (state w).
Proof.
  intros Hpre. unfold exec, call.
  destruct op as [productId|productId|productId requested]; simpl in *.
  - destruct (get_stock srv productId) as [stock|] eqn:Hstock;
      [|by rewrite addProduct_stock_failure].
    destruct (decide (stock_amount stock < required_quantity (state w) productId))
      as [Hlt|Hge]; [by erewrite addProduct_rejected|].
    unfold required_quantity in Hge.
    destruct (find _ (state w)) as [found|] eqn:Hfind.
    + erewrite addProduct_incremented by (done || lia). simpl.
      apply (filter_update (fun product => number_add (amount product) 1)).
    + destruct (get_product srv productId) as [productData|] eqn:Hdata.
      * erewrite addProduct_appended by (done || lia). simpl.
        unfold resolves in Hpre. rewrite Hdata in Hpre.
        apply find_id_None in Hfind.
        rewrite filter_appended by done. by rewrite filter_absent.
      * by erewrite addProduct_catalog_failure by (done || lia).
  - destruct (find (fun product => id product =? productId) (state w))
      as [found|] eqn:Hfind.
    + erewrite removeProduct_removed by done. simpl. apply filter_twice.
    + by rewrite removeProduct_not_found.
  - destruct (decide (requested < 1)) as [Hlt|Hge];
      [by rewrite updateProductAmount_ignored|].
    destruct (find (fun product => id product =? productId) (state w))
      as [found|] eqn:Hfind;
      [|by rewrite updateProductAmount_not_found by (done || lia)].
    destruct (get_stock srv productId) as [stock|] eqn:Hstock;
      [|by erewrite updateProductAmount_stock_failure by (done || lia)].
    destruct (decide (stock_amount stock < requested)) as [Hlt|Hok].
    + by erewrite updateProductAmount_rejected by (done || lia).
    + erewrite updateProductAmount_updated by (done || lia). simpl.
      apply (filter_update (fun _ => requested)).
Qed.

(** *** The helpers *)

(** X17. When the stock answers, [checkStockAvailability] makes that
    one request, leaves the cart and the store alone, and says yes
    exactly when the stock is at least the required quantity, a stock
    equal to it included; what suffices for a quantity suffices for any
    smaller one. *)
Theorem checkStockAvailability_answers productId requiredQuantity srv w stock :
  get_stock srv productId = Some stock ->
  exists available w',
    checkStockAvailability productId requiredQuantity srv w = (Normal available, w') /\
    (available = true <-> requiredQuantity <= stock_amount stock) /\
    state w' = state w /\
    localStorage w' = localStorage w /\
    emitted w w' = [ApiGetStock productId] /\
    forall smaller,
      smaller <= requiredQuantity ->
      available = true ->
      fst (checkStockAvailability productId smaller srv w) = Normal true.
Proof.
  intros Hstock.
  exists (bool_decide (stock_amount stock >= requiredQuantity)).
  eexists. split.
  { cbv beta iota zeta delta [checkStockAvailability bind api_get_stock ret log].
    by rewrite Hstock. }
  simpl. rewrite emitted_app by done.
  split_and!; try done.
  - rewrite bool_decide_eq_true. lia.
  - intros smaller Hle Havailable%bool_decide_eq_true.
    cbv beta iota zeta delta [checkStockAvailability bind api_get_stock ret log].
    rewrite Hstock. simpl. by rewrite bool_decide_eq_true_2 by lia.
Qed.

(** X18. [saveToLocalStorage] overwrites: after two saves the store is
    as after the second alone, the first text gone, and the cart in
    memory is not touched. *)
Theorem saveToLocalStorage_overwrites first second srv w :
  localStorage
    (exec (saveToLocalStorage JSON_stringify second) srv
       (exec (saveToLocalStorage JSON_stringify first) srv w))
  = localStorage (exec (saveToLocalStorage JSON_stringify second) srv w) /\
  localStorage
    (exec (saveToLocalStorage JSON_stringify second) srv
       (exec (saveToLocalStorage JSON_stringify first) srv w))
    !! LOCAL_STORAGE_CART_KEY = Some (JSON_stringify second) /\
  state
    (exec (saveToLocalStorage JSON_stringify second) srv
       (exec (saveToLocalStorage JSON_stringify first) srv w))
  = state w.
Proof.
  unfold exec, saveToLocalStorage, localStorage_setItem. simpl.
  split_and!; [apply insert_insert_eq | apply lookup_insert_eq | done].
Qed.

(** *** Notifying and committing *)

(** X19. A call ends in one of three ways: in silence, with nothing
    done at all; with one notification, the cart and the store as they
    were and nothing written or published; or with one write and one
    publication of the same cart and no notification. *)
Theorem notification_or_commit op srv w :
  exists w',
    call JSON_stringify op srv w = (Normal tt, w') /\
    (w' = w \/
     (count_calls is_ToastError w w' = 1%nat /\
      state w' = state w /\
      localStorage w' = localStorage w /\
      count_calls is_SetItem w w' = 0%nat /\
      count_calls is_SetCart w w' = 0%nat) \/
     (count_calls is_ToastError w w' = 0%nat /\
      List.filter is_SetItem (emitted w w') =
        [SetItem LOCAL_STORAGE_CART_KEY (JSON_stringify (state w'))] /\
      List.filter is_SetCart (emitted w w') = [SetCart (state w')])).
Proof.
  unfold call.
  destruct op as [productId|productId|productId requested].
  - destruct (get_stock srv productId) as [stock|] eqn:Hstock.
    2: { eexists. split; [by apply addProduct_stock_failure|].
         right. left. unfold count_calls. by rewrite emitted_app. }
    destruct (decide (stock_amount stock < required_quantity (state w) productId))
      as [Hlt|Hge].
    { eexists. split; [by eapply addProduct_rejected|].
      right. left. unfold count_calls. by rewrite emitted_app. }
    unfold required_quantity in Hge.
    destruct (find _ (state w)) as [found|] eqn:Hfind.
    + eexists. split; [eapply addProduct_incremented; done || lia|].
      right. right. unfold count_calls. by rewrite emitted_app.
    + destruct (get_product srv productId) as [productData|] eqn:Hdata.
      * eexists. split; [eapply addProduct_appended; done || lia|].
        right. right. unfold count_calls. by rewrite emitted_app.
      * eexists. split; [eapply addProduct_catalog_failure; done || lia|].
        right. left. unfold count_calls. by rewrite emitted_app.
  - destruct (find (fun product => id product =? productId) (state w))
      as [found|] eqn:Hfind.
    + eexists. split; [by eapply removeProduct_removed|].
      right. right. unfold count_calls. by rewrite emitted_app.
    + eexists. split; [by apply removeProduct_not_found|].
      right. left. unfold count_calls. by rewrite emitted_app.
  - destruct (decide (requested < 1)) as [Hlt|Hge].
    { eexists. split; [by apply updateProductAmount_ignored|]. by left. }
    destruct (find (fun product => id product =? productId) (state w))
      as [found|] eqn:Hfind.
    2: { eexists. split; [apply updateProductAmount_not_found; done || lia|].
         right. left. unfold count_calls. by rewrite emitted_app. }
    destruct (get_stock srv productId) as [stock|] eqn:Hstock.
    2: { eexists. split; [eapply updateProductAmount_stock_failure; done || lia|].
         right. left. unfold count_calls. by rewrite emitted_app. }
    destruct (decide (stock_amount stock < requested)) as [Hlt|Hok].
    + eexists. split; [eapply updateProductAmount_rejected; done || lia|].
      right. left. unfold count_calls. by rewrite emitted_app.
    + eexists. split; [eapply updateProductAmount_updated; done || lia|].
      right. right. unfold count_calls. by rewrite emitted_app.
Qed.

Ltac which_call H :=
  simpl in H; rewrite ?emitted_refl in H; rewrite ?emitted_app in H by done;
  repeat (apply elem_of_cons in H as [H|H]; [try discriminate H|]);
  try (by apply elem_of_nil in H).

(** X20. The catalog is asked for a product only by [addProduct], only
    for the requested id, only when that id is not in the cart, and only
    after the stock has answered at least 1. *)
Theorem product_requested_only_when_new op srv w requestedId :
  ApiGetProduct requestedId ∈ emitted w (exec (call JSON_stringify op) srv w) ->
  op = AddProduct requestedId /\
  (requestedId ∉ map id (state w)) /\
  exists stock,
    get_stock srv requestedId = Some stock /\ stock_amount stock >= 1.
Proof.
  unfold exec, call. intros Hin.
  destruct op as [productId|productId|productId requested].
  - destruct (get_stock srv productId) as [stock|] eqn:Hstock;
      [|rewrite addProduct_stock_failure in Hin by done; which_call Hin].
    destruct (decide (stock_amount stock < required_quantity (state w) productId))
      as [Hlt|Hge];
      [erewrite addProduct_rejected in Hin by done; which_call Hin|].
    unfold required_quantity in Hge.
    destruct (find _ (state w)) as [found|] eqn:Hfind;
      [erewrite addProduct_incremented in Hin by (done || lia); which_call Hin|].
    assert (requestedId = productId) as ->.
    { destruct (get_product srv productId) as [productData|] eqn:Hdata.
      - erewrite addProduct_appended in Hin by (done || lia). which_call Hin.
        congruence.
      - erewrite addProduct_catalog_failure in Hin by (done || lia).
        which_call Hin. congruence. }
    split_and!; [done | by apply find_id_None | by exists stock].
  - destruct (find (fun product => id product =? productId) (state w))
      as [found|] eqn:Hfind.
    + erewrite removeProduct_removed in Hin by done. which_call Hin.
    + rewrite removeProduct_not_found in Hin by done. which_call Hin.
  - destruct (decide (requested < 1)) as [Hlt|Hge];
      [rewrite updateProductAmount_ignored in Hin by done; which_call Hin|].
    destruct (find (fun product => id product =? productId) (state w))
      as [found|] eqn:Hfind;
      [|rewrite updateProductAmount_not_found in Hin by (done || lia);
        which_call Hin].
    destruct (get_stock srv productId) as [stock|] eqn:Hstock;
      [|erewrite updateProductAmount_stock_failure in Hin by (done || lia);
        which_call Hin].
    destruct (decide (stock_amount stock < requested)) as [Hlt|Hok].
    + erewrite updateProductAmount_rejected in Hin by (done || lia).
      which_call Hin.
    + erewrite updateProductAmount_updated in Hin by (done || lia).
      which_call Hin.
Qed.

(** *** Calls made from a render that is no longer current *)

(** X21. A change of quantity made from a render that still shows the
    product, after the product has left the state, is not refused: the
    stock is asked, the state is written to the store and published as
    it is, and nobody is notified. *)
Theorem updateProductAmount_after_removal cart productId requested srv w stock :
  productId ∈ map id cart ->
  productId ∉ map id (state w) ->
  requested >= 1 ->
  get_stock srv productId = Some stock ->
  stock_amount stock >= requested ->
  exists w',
    updateProductAmount JSON_stringify cart productId requested srv w
    = (Normal tt, w') /\
    state w' = state w /\
    localStorage w' =
      <[LOCAL_STORAGE_CART_KEY := JSON_stringify (state w)]> (localStorage w) /\
    emitted w w' =
      [ApiGetStock productId;
       SetItem LOCAL_STORAGE_CART_KEY (JSON_stringify (state w));
       SetCart (state w)] /\
    count_calls is_ToastError w w' = 0%nat.
Proof.
  intros Hin Habsent Hge Hstock Hok.
  destruct (find (fun product => id product =? productId) cart)
    as [found|] eqn:Hfind; [|by apply find_id_None in Hfind].
  eexists. split; [by eapply updateProductAmount_updated|]. simpl.
  rewrite (map_update_absent (fun _ => requested)) by done.
  unfold count_calls. by rewrite emitted_app.
Qed.

(** *** What [addProduct] keeps *)

(** X22. [addProduct] never removes or moves a product: every product
    of the cart is still at its place afterwards, with its id and
    catalog fields, its amount the same or the sum of it and 1 as
    JavaScript computes it, which for an amount below 2^53 in magnitude
    is the same or one more; the cart grows by one product at most. *)
Theorem addProduct_keeps_products productId srv w i product :
  state w !! i = Some product ->
  (exists product',
     state (exec (call JSON_stringify (AddProduct productId)) srv w) !! i
     = Some product' /\
     id product' = id product /\
     meta product' = meta product /\
     (amount product' = amount product \/
      amount product' = number_add (amount product) 1) /\
     (- 2 ^ 53 < amount product < 2 ^ 53 ->
      amount product <= amount product' <= amount product + 1)) /\
  (length (state w)
   <= length (state (exec (call JSON_stringify (AddProduct productId)) srv w))
   <= S (length (state w)))%nat.
Proof.
  intros Hi. unfold exec, call.
  assert (exists product',
            Some product = Some product' /\
            id product' = id product /\
            meta product' = meta product /\
            (amount product' = amount product \/
             amount product' = number_add (amount product) 1) /\
            (- 2 ^ 53 < amount product < 2 ^ 53 ->
             amount product <= amount product' <= amount product + 1))
    as Hsame.
  { exists product. split_and!; [done | done | done | by left | lia]. }
  destruct (get_stock srv productId) as [stock|] eqn:Hstock.
  2: { rewrite addProduct_stock_failure by done. simpl.
       rewrite Hi. split; [done | lia]. }
  destruct (decide (stock_amount stock < required_quantity (state w) productId))
    as [Hlt|Hge].
  { erewrite addProduct_rejected by done. simpl.
    rewrite Hi. split; [done | lia]. }
  unfold required_quantity in Hge.
  destruct (find _ (state w)) as [found|] eqn:Hfind.
  - erewrite addProduct_incremented by (done || lia). simpl.
    rewrite length_map. split; [|lia].
    eexists. split; [by rewrite list_lookup_fmap, Hi|].
    destruct (id product =? productId); simpl; [|split_and!; by left || done || lia].
    split_and!; [done | done | by right |].
    intros Hsafe. rewrite number_add_safe by done. lia.
  - destruct (get_product srv productId) as [productData|] eqn:Hdata.
    + erewrite addProduct_appended by (done || lia). simpl.
      rewrite length_app. simpl. split; [|lia].
      destruct Hsame as (product' & [= <-] & Hrest).
      exists product. split; [by apply lookup_app_l_Some | done].
    + erewrite addProduct_catalog_failure by (done || lia). simpl.
      rewrite Hi. split; [done | lia].
Qed.

(** *** The store follows the state *)

(** X23. Once the store holds the text of the current cart, it does so
    after every call, whatever the operation, its arguments and the
    server's answers. *)
Theorem snapshot_stays_current op srv w :
  snapshot_current JSON_stringify w ->
  snapshot_current JSON_stringify (exec (call JSON_stringify op) srv w).
Proof.
  unfold snapshot_current. intros Hcurrent.
  destruct (call_outcome op srv w) as [evs _|evs updatedCart _]; simpl;
    [done | apply lookup_insert_eq].
Qed.

(** X24. [JSON.parse] reading back what [JSON.stringify] writes, a
    store from which a reload would start with the current cart stays
    so after every call: at any time a reload gives the cart in
    memory. *)
Theorem reload_gives_current_cart op srv w :
  (forall cart,
     truthy (JSON_stringify cart) = true /\
     JSON_parse (JSON_stringify cart) = Some (ProductArray cart)) ->
  initialCart JSON_parse (localStorage w) = Normal (ProductArray (state w)) ->
  initialCart JSON_parse (localStorage (exec (call JSON_stringify op) srv w))
  = Normal (ProductArray (state (exec (call JSON_stringify op) srv w))).
Proof.
  intros Hjson Hreload.
  destruct (call_outcome op srv w) as [evs _|evs updatedCart _]; simpl; [done|].
  destruct (Hjson updatedCart) as [Htruthy Hparse].
  apply stored_reads_back; [apply lookup_insert_eq | done | done].
Qed.

(** X25. The invariants also survive calls made from a render that is
    no longer current: when both the cart the operation closed over and
    the state have amounts of at least 1 and unique ids, so has the
    state after the call. *)
Theorem stale_calls_keep_invariants cart productId requested srv w :
  invariants cart ->
  invariants (state w) ->
  resolves srv productId ->
  invariants (state (exec (addProduct JSON_stringify cart productId) srv w)) /\
  invariants (state (exec (removeProduct JSON_stringify cart productId) srv w)) /\
  invariants
    (state (exec (updateProductAmount JSON_stringify cart productId requested) srv w)).
Proof.
  intros Hcart Hstate Hres. split_and!.
  - by apply addProduct_invariants.
  - by apply removeProduct_invariants.
  - by apply updateProductAmount_invariants.
Qed.

End Properties.

(** ** The codec of the concrete store reads back what it prints *)

Section Codec.

Import RocketShoes.

(** *** Appending texts *)

Lemma append_String c (s t : string) : String c s +:+ t = String c (s +:+ t).
Proof. reflexivity. Qed.

Lemma append_Empty (t : string) : EmptyString +:+ t = t.
Proof. reflexivity. Qed.

Lemma append_assoc (s1 s2 s3 : string) :
  (s1 +:+ s2) +:+ s3 = s1 +:+ (s2 +:+ s3).
Proof.
  induction s1 as [|c s1 IH]; [done|].
  by rewrite !append_String, IH.
Qed.

Lemma append_nil_r (s : string) : s +:+ EmptyString = s.
Proof.
  induction s as [|c s IH]; [done|]. by rewrite append_String, IH.
Qed.

Ltac texts :=
  repeat (rewrite append_assoc || rewrite append_String || rewrite append_Empty).

(** *** Texts between quotes *)

Lemma lex_escape acc s rest :
  lex (InString acc) (escape s +:+ String quote rest)
  = cons (TString (acc +:+ s)) <$> lex Between rest.
Proof.
  revert acc. induction s as [|c s IH]; intros acc; simpl; texts.
  - simpl. by rewrite append_nil_r.
  - assert (snoc acc c +:+ s = acc +:+ String c s) as Hacc
      by (unfold snoc; by texts).
    destruct (Ascii.eqb c quote) eqn:Hq; simpl; texts; simpl.
    + by rewrite Hq, IH, Hacc.
    + destruct (Ascii.eqb c backslash) eqn:Hb; simpl; texts; simpl;
        by rewrite Hq, Hb, IH, Hacc.
Qed.

Lemma start_quote (continue : lexer_state -> option (list token)) :
  start quote continue = continue (InString EmptyString).
Proof. reflexivity. Qed.

Lemma lex_print_string s rest :
  lex Between (print_string s +:+ rest)
  = cons (TString s) <$> lex Between rest.
Proof.
  unfold print_string. texts. simpl. rewrite start_quote.
  apply (lex_escape EmptyString).
Qed.

(** *** Numbers *)

Lemma is_digit_not_space c : is_digit c = true -> is_space c = false.
Proof.
  unfold is_digit, is_space. intros [H1 H2]%andb_prop.
  apply Nat.leb_le in H1. apply Nat.leb_le in H2.
  repeat (apply orb_false_intro); apply Nat.eqb_neq; lia.
Qed.

Lemma is_digit_not_quote c : is_digit c = true -> Ascii.eqb c quote = false.
Proof.
  intros Hd. apply Ascii.eqb_neq. intros ->. discriminate.
Qed.

Lemma string_of_uint_digits d : all_digits (NilEmpty.string_of_uint d) = true.
Proof. induction d; simpl; by rewrite ?IHd. Qed.

Lemma lex_digits acc ds c rest :
  all_digits ds = true ->
  is_digit c = false ->
  lex (InNumber acc) (ds +:+ String c rest)
  = match number_token (acc +:+ ds) with
    | Some t => cons t <$> start c (fun st' => lex st' rest)
    | None => None
    end.
Proof.
  revert acc. induction ds as [|d ds IH]; intros acc Hds Hc; texts; simpl.
  - by rewrite Hc, append_nil_r.
  - simpl in Hds. apply andb_prop in Hds as [Hd Hds].
    rewrite Hd, IH by done. unfold snoc. by texts.
Qed.

(** The text of a number: a digit or a minus sign, then digits. *)
Lemma print_number_shape n :
  exists c ds,
    print_number n = String c ds /\
    all_digits ds = true /\
    (is_digit c = true \/ c = "-"%char).
Proof.
  unfold print_number.
  destruct (Z.to_int n) as [d|d] eqn:Hn; simpl.
  - destruct d; simpl;
      try (eexists _, _; split; [reflexivity|];
           split; [apply string_of_uint_digits | by left]).
    exists "0"%char, EmptyString. split_and!; [done | done | by left].
  - destruct d; simpl; eexists _, _; (split; [reflexivity|]);
      (split; [|by right]); simpl; by rewrite ?string_of_uint_digits.
Qed.

Lemma number_token_print_number n :
  number_token (print_number n) = Some (TNumber n).
Proof.
  unfold number_token, print_number.
  assert (NilZero.int_of_string (NilZero.string_of_int (Z.to_int n))
          = Some (Z.to_int n)) as ->.
  { apply NilZero.isi; destruct n; simpl; try discriminate.
    - intros [= H]. by destruct (DecimalPos.Unsigned.to_uint_nonnil p).
    - intros [= H]. by destruct (DecimalPos.Unsigned.to_uint_nonnil p). }
  by rewrite DecimalZ.of_to.
Qed.

Lemma lex_print_number n c rest :
  is_digit c = false ->
  lex Between (print_number n +:+ String c rest)
  = cons (TNumber n) <$> start c (fun st' => lex st' rest).
Proof.
  intros Hc. pose proof (number_token_print_number n) as Htoken.
  destruct (print_number_shape n) as (c0 & ds & Hshape & Hds & Hc0).
  rewrite Hshape in *. texts. simpl. unfold start.
  assert (is_space c0 = false /\ Ascii.eqb c0 quote = false /\
          (is_digit c0 || (nat_of_ascii c0 =? 45)%nat)%bool = true)
    as (-> & -> & ->).
  { destruct Hc0 as [Hd| ->]; [|done].
    by rewrite is_digit_not_space, is_digit_not_quote, Hd. }
  rewrite lex_digits by done. texts. by rewrite Htoken.
Qed.

(** *** Punctuation *)

Lemma lex_punctuation c rest :
  is_space c = false ->
  Ascii.eqb c quote = false ->
  is_digit c = false ->
  (nat_of_ascii c =? 45)%nat = false ->
  is_letter c = false ->
  start c (fun st' => lex st' rest)
  = match punctuation c with
    | Some t => cons t <$> lex Between rest
    | None => None
    end.
Proof. unfold start. by intros -> -> -> -> ->. Qed.

Lemma lex_Between c rest :
  lex Between (String c rest) = start c (fun st' => lex st' rest).
Proof. reflexivity. Qed.

Ltac punctuation_mark :=
  rewrite ?lex_Between;
  rewrite lex_punctuation by reflexivity;
  match goal with
  | |- context [punctuation ?c] =>
      let t := eval vm_compute in (punctuation c) in
      change (punctuation c) with t
  end;
  cbv beta iota.

(** *** Products and carts *)

Lemma lex_print_product product rest :
  lex Between (print_product product +:+ rest)
  = app (product_tokens product) <$> lex Between rest.
Proof.
  unfold print_product, print_member. texts.
  punctuation_mark.
  rewrite lex_print_string. punctuation_mark.
  rewrite lex_print_number by reflexivity. punctuation_mark.
  rewrite lex_print_string. punctuation_mark.
  rewrite lex_print_string. punctuation_mark.
  rewrite lex_print_string. punctuation_mark.
  rewrite lex_print_number by reflexivity. punctuation_mark.
  rewrite lex_print_string. punctuation_mark.
  rewrite lex_print_string. punctuation_mark.
  rewrite lex_print_string. punctuation_mark.
  rewrite lex_print_number by reflexivity. punctuation_mark.
  by destruct (lex Between rest).
Qed.

Lemma lex_items first others rest :
  lex Between
    (join "," (map print_product (first :: others)) +:+ String "]" rest)
  = app (items_tokens first others) <$> lex Between rest.
Proof.
  revert first. induction others as [|next others IH]; intros first.
  - simpl join. rewrite lex_print_product. punctuation_mark.
    by destruct (lex Between rest).
  - change (join "," (map print_product (first :: next :: others)))
      with (print_product first +:+ "," +:+
              join "," (map print_product (next :: others))).
    texts. rewrite lex_print_product. punctuation_mark. rewrite IH.
    by destruct (lex Between rest).
Qed.

Lemma lex_JSON_stringify cart :
  lex Between (JSON_stringify cart) = Some (cart_tokens cart).
Proof.
  unfold JSON_stringify. destruct cart as [|first others].
  - reflexivity.
  - texts. punctuation_mark. rewrite lex_items. simpl.
    by rewrite app_nil_r.
Qed.

(** *** Parsing the tokens back *)

Lemma parse_product_tokens fuel product rest :
  parse_value (7 + fuel) (product_tokens product ++ rest)
  = Some (product_json product, rest).
Proof. reflexivity. Qed.

Lemma parse_items_tokens fuel first others rest :
  parse_items (length others + 8 + fuel) (items_tokens first others ++ rest)
  = Some (map product_json (first :: others), rest).
Proof.
  revert first fuel. induction others as [|next others IH]; intros first fuel.
  - reflexivity.
  - change (items_tokens first (next :: others))
      with (product_tokens first ++ TComma :: items_tokens next others).
    rewrite <- app_assoc, <- app_comm_cons.
    replace (length (next :: others) + 8 + fuel)%nat
      with (S (7 + (length others + 1 + fuel)))%nat by (simpl; lia).
    cbn [parse_items]. rewrite parse_product_tokens. cbn [mbind option_bind].
    replace (7 + (length others + 1 + fuel))%nat
      with (length others + 8 + fuel)%nat by lia.
    by rewrite IH.
Qed.

Lemma length_items_tokens first others :
  length (items_tokens first others) = (22 * S (length others))%nat.
Proof.
  revert first. induction others as [|next others IH]; intros first; [done|].
  change (items_tokens first (next :: others))
    with (product_tokens first ++ TComma :: items_tokens next others).
  rewrite length_app, length_cons, IH. simpl. lia.
Qed.

Lemma parse_JSON_stringify cart :
  parse (JSON_stringify cart) = Some (JArray (map product_json cart)).
Proof.
  unfold parse. rewrite lex_JSON_stringify. cbn [mbind option_bind].
  destruct cart as [|first others]; [reflexivity|].
  unfold cart_tokens. rewrite length_cons, length_items_tokens.
  assert (exists tokens, items_tokens first others = TLBrace :: tokens)
    as [tokens Htokens] by (destruct others; by eexists).
  cbn [parse_value]. rewrite Htokens, <- Htokens.
  replace (S (22 * S (length others)))
    with (length others + 8 + (21 * length others + 15))%nat by lia.
  rewrite <- (app_nil_r (items_tokens first others)).
  by rewrite parse_items_tokens.
Qed.

Lemma as_product_json product : as_product (product_json product) = Some product.
Proof. by destruct product as [i a [t p img]]. Qed.

Lemma as_cart_json cart :
  as_cart (JArray (map product_json cart)) = ProductArray cart.
Proof.
  unfold as_cart.
  assert (mapM as_product (map product_json cart) = Some cart) as ->; [|done].
  apply (mapM_fmap_Some as_product product_json), as_product_json.
Qed.

(** [JSON.parse(JSON.stringify(cart))] is [cart]. *)
Lemma JSON_parse_stringify cart :
  JSON_parse (JSON_stringify cart) = Some (ProductArray cart).
Proof.
  unfold JSON_parse. rewrite parse_JSON_stringify.
  by rewrite <- as_cart_json.
Qed.

(** The text of a cart is never empty. *)
Lemma JSON_stringify_truthy cart : truthy (JSON_stringify cart) = true.
Proof. reflexivity. Qed.

(** In the concrete store the round trip needs no assumption: whatever
    an operation commits is what the next initialisation starts from. *)
Lemma committed_cart_survives_reload op srv (w : World Shoe) :
  Exists (fun e => is_SetItem e = true \/ is_SetCart e = true)
    (emitted w (exec (call JSON_stringify op) srv w)) ->
  initialCart JSON_parse (localStorage (exec (call JSON_stringify op) srv w))
  = Normal (ProductArray (state (exec (call JSON_stringify op) srv w))).
Proof.
  intros Hwrote.
  destruct (outcome_committed _ _ _ (call_outcome JSON_stringify op srv w) Hwrote)
    as (_ & _ & Hstored).
  apply (stored_reads_back JSON_stringify); [done | apply JSON_stringify_truthy |].
  apply JSON_parse_stringify.
Qed.

End Codec.

(** ** The scenarios of the shop, run on the concrete store *)

Section Scenarios.

Import RocketShoes.

Lemma both_invariants : invariants both.
Proof.
  split.
  - repeat (apply Forall_cons; split; [simpl; lia|]). apply Forall_nil_2.
  - unfold ids_unique. simpl.
    apply NoDup_cons. split; [|apply NoDup_singleton].
    intros Hin%list_elem_of_singleton. discriminate.
Qed.

(** With both shoes in the cart, one more runner is added; the cart
    that results keeps the invariants, whatever is called next. *)
Lemma invariants_preserved_witness :
  invariants
    (state (exec (call JSON_stringify (AddProduct 5)) (server 3) (world_of both)))
  /\
  forall srv op,
    precondition srv op ->
    invariants
      (state (exec (call JSON_stringify op) srv
                (exec (call JSON_stringify (AddProduct 5)) (server 3)
                   (world_of both)))).
Proof.
  apply (invariants_preserved JSON_stringify (world_of both)).
  - exact both_invariants.
  - apply reachable_call; [apply reachable_start | reflexivity].
Defined.

(** Cart = [], addProduct(5) with three in stock. *)
Lemma addProduct_appends_witness :
  exists w',
    call JSON_stringify (AddProduct 5) (server 3) empty_world = (Normal tt, w') /\
    state w' = [{| id := 5; amount := 1; meta := runner |}] /\
    length (state w') = 1%nat /\
    (forall i product,
       state empty_world !! i = Some product -> state w' !! i = Some product) /\
    state w' !! 0%nat = Some {| id := 5; amount := 1; meta := runner |}.
Proof.
  refine (addProduct_appends JSON_stringify 5 (server 3) empty_world
            {| stock_id := 5; stock_amount := 3 |}
            {| data_id := 5; data_meta := runner |} _ _ _ _).
  - simpl. apply not_elem_of_nil.
  - reflexivity.
  - simpl. lia.
  - reflexivity.
Defined.

(** addProduct(7) with three in stock, the sneaker being the second of
    three products in the cart. *)
Lemma addProduct_increments_witness :
  (exists w',
     call JSON_stringify (AddProduct 7) (server 3) (world_of three_shoes)
     = (Normal tt, w') /\
     state w' =
       [{| id := 5; amount := 2; meta := runner |};
        {| id := 7; amount := 2; meta := sneaker |};
        {| id := 3; amount := 1; meta := trainer |}]) /\
  (- 2 ^ 53 < 1 < 2 ^ 53 -> number_add 1 1 = 1 + 1).
Proof.
  refine (addProduct_increments JSON_stringify 7 (server 3) (world_of three_shoes)
            {| stock_id := 7; stock_amount := 3 |}
            [{| id := 5; amount := 2; meta := runner |}]
            {| id := 7; amount := 1; meta := sneaker |}
            [{| id := 3; amount := 1; meta := trainer |}] _ _ _ _ _).
  - unfold ids_unique. simpl.
    repeat (apply NoDup_cons; split;
            [rewrite ?not_elem_of_cons; split_and?; done || apply not_elem_of_nil|]).
    apply NoDup_nil_2.
  - reflexivity.
  - reflexivity.
  - reflexivity.
  - vm_compute. discriminate.
Defined.

(** addProduct(5) with two in stock and two in the cart. *)
Lemma addProduct_out_of_stock_witness :
  (exists w',
     call JSON_stringify (AddProduct 5) (server 2) (world_of two_runners)
     = (Normal tt, w') /\
     state w' = two_runners /\
     localStorage w' = ∅ /\
     emitted (world_of two_runners) w' =
       [ApiGetStock 5; ToastError "Quantidade solicitada fora de estoque"] /\
     count_calls is_SetItem (world_of two_runners) w' = 0%nat /\
     count_calls is_SetCart (world_of two_runners) w' = 0%nat /\
     count_calls is_ToastError (world_of two_runners) w' = 1%nat) /\
  (5 ∉ map id two_runners -> required_quantity two_runners 5 = 1) /\
  (forall found,
     find (fun product => id product =? 5) two_runners = Some found ->
     required_quantity two_runners 5 = number_add (amount found) 1 /\
     (- 2 ^ 53 < amount found < 2 ^ 53 ->
      required_quantity two_runners 5 = amount found + 1)).
Proof.
  refine (addProduct_out_of_stock JSON_stringify 5 (server 2) (world_of two_runners)
            {| stock_id := 5; stock_amount := 2 |} _ _).
  - reflexivity.
  - vm_compute. reflexivity.
Defined.

(** removeProduct(9) and removeProduct(5) on a cart of runners. *)
Lemma removeProduct_removes_witness :
  (exists w',
     call JSON_stringify (RemoveProduct 9) offline (world_of two_runners)
     = (Normal tt, w') /\
     state w' = two_runners /\
     emitted (world_of two_runners) w' =
       [ToastError "Erro na remoção do produto"]) /\
  (exists w',
     call JSON_stringify (RemoveProduct 5) offline (world_of both)
     = (Normal tt, w') /\
     state w' = [{| id := 7; amount := 1; meta := sneaker |}]).
Proof.
  split.
  - destruct (removeProduct_removes JSON_stringify 9 offline (world_of two_runners))
      as (w' & Hcall & _ & Habsent).
    { unfold ids_unique. simpl. apply NoDup_singleton. }
    exists w'. split; [exact Hcall|].
    destruct Habsent as (Hstate & _ & Hemitted & _).
    { simpl. intros Hin%list_elem_of_singleton. discriminate. }
    split; [exact Hstate | exact Hemitted].
  - destruct (removeProduct_removes JSON_stringify 5 offline (world_of both))
      as (w' & Hcall & Hpresent & _).
    { exact (proj2 both_invariants). }
    exists w'. split; [exact Hcall|].
    destruct (Hpresent [] {| id := 5; amount := 2; meta := runner |}
                [{| id := 7; amount := 1; meta := sneaker |}]) as [Hstate _];
      [reflexivity | reflexivity | exact Hstate].
Defined.

(** updateProductAmount({ productId: 5, amount: 0 }). *)
Lemma updateProductAmount_below_one_witness :
  updateProductAmount JSON_stringify two_runners 5 0 (server 3) (world_of two_runners)
  = (Normal tt, world_of two_runners) /\
  forall w',
    w' = exec (updateProductAmount JSON_stringify two_runners 5 0) (server 3)
           (world_of two_runners) ->
    state w' = two_runners /\
    localStorage w' = ∅ /\
    emitted (world_of two_runners) w' = [] /\
    count_calls is_ApiGetStock (world_of two_runners) w' = 0%nat /\
    count_calls is_SetItem (world_of two_runners) w' = 0%nat /\
    count_calls is_SetCart (world_of two_runners) w' = 0%nat /\
    count_calls is_ToastError (world_of two_runners) w' = 0%nat.
Proof.
  apply (updateProductAmount_below_one JSON_stringify two_runners 5 0). lia.
Defined.

(** updateProductAmount({ productId: 7, amount: 3 }) with three in
    stock. *)
Lemma updateProductAmount_sets_witness :
  exists w',
    call JSON_stringify (UpdateProductAmount 7 3) (server 3) (world_of both)
    = (Normal tt, w') /\
    length (state w') = 2%nat /\
    (forall i product,
       both !! i = Some product ->
       state w' !! i =
         Some (if decide (id product = 7)
               then {| id := id product; amount := 3; meta := meta product |}
               else product)) /\
    localStorage w' =
      <[LOCAL_STORAGE_CART_KEY := JSON_stringify (state w')]> ∅ /\
    emitted (world_of both) w' =
      [ApiGetStock 7;
       SetItem LOCAL_STORAGE_CART_KEY (JSON_stringify (state w'));
       SetCart (state w')].
Proof.
  refine (updateProductAmount_sets JSON_stringify 7 3 (server 3) (world_of both)
            {| stock_id := 7; stock_amount := 3 |} _ _ _ _).
  - simpl. apply elem_of_cons. right. apply elem_of_cons. by left.
  - lia.
  - reflexivity.
  - simpl. lia.
Defined.

(** The first addProduct(5): what it stores reads back as the cart. *)
Lemma persisted_snapshot_is_state_witness :
  List.filter is_SetItem
    (emitted empty_world
       (exec (call JSON_stringify (AddProduct 5)) (server 3) empty_world)) =
    [SetItem LOCAL_STORAGE_CART_KEY
       (JSON_stringify [{| id := 5; amount := 1; meta := runner |}])] /\
  List.filter is_SetCart
    (emitted empty_world
       (exec (call JSON_stringify (AddProduct 5)) (server 3) empty_world)) =
    [SetCart [{| id := 5; amount := 1; meta := runner |}]] /\
  localStorage (exec (call JSON_stringify (AddProduct 5)) (server 3) empty_world)
    !! LOCAL_STORAGE_CART_KEY =
    Some (JSON_stringify [{| id := 5; amount := 1; meta := runner |}]) /\
  initialCart JSON_parse
    (localStorage (exec (call JSON_stringify (AddProduct 5)) (server 3) empty_world))
  = Normal (ProductArray [{| id := 5; amount := 1; meta := runner |}]).
Proof.
  refine (persisted_snapshot_is_state JSON_stringify JSON_parse
            (AddProduct 5) (server 3) empty_world _ eq_refl _ _ _).
  - apply Exists_exists.
    exists (SetCart [{| id := 5; amount := 1; meta := runner |}]).
    split; [|by right].
    do 3 (apply elem_of_cons; right). apply elem_of_cons. by left.
  - reflexivity.
  - vm_compute. reflexivity.
Defined.

(** updateProductAmount({ productId: 5, amount: 1 }) while the server
    is down. *)
Lemma updateProductAmount_stock_unreachable_witness :
  exists w' message,
    call JSON_stringify (UpdateProductAmount 5 1) offline (world_of two_runners)
    = (Normal tt, w') /\
    state w' = two_runners /\
    localStorage w' = ∅ /\
    emitted (world_of two_runners) w' = [ApiGetStock 5; ToastError message] /\
    count_calls is_ToastError (world_of two_runners) w' = 1%nat /\
    message = "Erro na alteração de quantidade do produto"%string /\
    forall srv0 w0,
      5 ∉ map id (state w0) ->
      emitted w0
        (exec (call JSON_stringify (UpdateProductAmount 5 1)) srv0 w0)
      = [ToastError message].
Proof.
  refine (updateProductAmount_stock_unreachable JSON_stringify 5 1 offline
            (world_of two_runners) _ _ _).
  - simpl. apply elem_of_cons. by left.
  - lia.
  - reflexivity.
Defined.

(** C9 fails on a stored text that is not JSON: [JSON.parse] throws on
    it, and the initialisation throws instead of yielding the empty
    cart. *)
Lemma initialCart_unreadable_throws :
  JSON_parse "{" = None /\
  initialCart JSON_parse {[ LOCAL_STORAGE_CART_KEY := "{"%string ]} = Throw /\
  initialCart JSON_parse {[ LOCAL_STORAGE_CART_KEY := "{"%string ]}
    <> Normal (ProductArray []).
Proof.
  assert (initialCart JSON_parse {[ LOCAL_STORAGE_CART_KEY := "{"%string ]} = Throw)
    as Hthrow.
  { unfold initialCart. rewrite lookup_singleton_eq. reflexivity. }
  split; [reflexivity|]. split; [exact Hthrow|]. rewrite Hthrow. discriminate.
Qed.

(** A stored text that is JSON but not a cart is taken as it is. *)
Lemma initialCart_unvalidated :
  JSON_parse "42" = Some OtherValue /\
  initialCart JSON_parse {[ LOCAL_STORAGE_CART_KEY := "42"%string ]}
  = Normal OtherValue.
Proof.
  split; [reflexivity|].
  unfold initialCart. rewrite lookup_singleton_eq. reflexivity.
Qed.

(** Three calls of addProduct(5) from the empty cart, the stock holding
    three, three and then two: the third is rejected with one
    notification and the cart stays at amount 2. *)
Example scenario_add_until_out_of_stock :
  forall w1 w2 w3,
    w1 = exec (call JSON_stringify (AddProduct 5)) (server 3) empty_world ->
    w2 = exec (call JSON_stringify (AddProduct 5)) (server 3) w1 ->
    w3 = exec (call JSON_stringify (AddProduct 5)) (server 2) w2 ->
    state w1 = one_runner /\
    state w2 = two_runners /\
    state w3 = two_runners /\
    localStorage w3 = localStorage w2 /\
    emitted w2 w3 =
      [ApiGetStock 5; ToastError "Quantidade solicitada fora de estoque"] /\
    initialCart JSON_parse (localStorage w3) = Normal (ProductArray two_runners).
Proof.
  intros w1 w2 w3 -> -> ->. split_and!; reflexivity.
Qed.

(** removeProduct(9) on a cart that has no product 9. *)
Example scenario_remove_absent :
  forall w',
    w' = exec (call JSON_stringify (RemoveProduct 9)) (server 3)
           (world_of two_runners) ->
    state w' = two_runners /\
    localStorage w' = ∅ /\
    emitted (world_of two_runners) w' = [ToastError "Erro na remoção do produto"].
Proof. intros w' ->. split_and!; reflexivity. Qed.

End Scenarios.

(** ** Further scenarios of the shop *)

Section FurtherScenarios.

Import RocketShoes.

(** addProduct(5) while the server is down. *)
Lemma addProduct_stock_unreachable_witness :
  exists w',
    call JSON_stringify (AddProduct 5) offline (world_of two_runners)
    = (Normal tt, w') /\
    state w' = two_runners /\
    localStorage w' = ∅ /\
    emitted (world_of two_runners) w' =
      [ApiGetStock 5; ToastError "Erro na adição do produto"] /\
    count_calls is_ApiGetProduct (world_of two_runners) w' = 0%nat.
Proof.
  refine (addProduct_stock_unreachable JSON_stringify 5 offline
            (world_of two_runners) _).
  reflexivity.
Defined.

(** addProduct(7) while the catalog is down. *)
Lemma addProduct_catalog_unreachable_witness :
  exists w',
    call JSON_stringify (AddProduct 7) catalog_down (world_of two_runners)
    = (Normal tt, w') /\
    state w' = two_runners /\
    localStorage w' = ∅ /\
    emitted (world_of two_runners) w' =
      [ApiGetStock 7; ApiGetProduct 7; ToastError "Erro na adição do produto"] /\
    count_calls is_SetItem (world_of two_runners) w' = 0%nat /\
    count_calls is_SetCart (world_of two_runners) w' = 0%nat.
Proof.
  refine (addProduct_catalog_unreachable JSON_stringify 7 catalog_down
            (world_of two_runners) {| stock_id := 7; stock_amount := 3 |} _ _ _ _).
  - simpl. intros Hin%list_elem_of_singleton. discriminate.
  - reflexivity.
  - simpl. lia.
  - reflexivity.
Defined.

(** updateProductAmount({ productId: 9, amount: 2 }) on a cart without
    product 9. *)
Lemma updateProductAmount_unknown_product_witness :
  exists w',
    call JSON_stringify (UpdateProductAmount 9 2) (server 3) (world_of two_runners)
    = (Normal tt, w') /\
    state w' = two_runners /\
    localStorage w' = ∅ /\
    emitted (world_of two_runners) w' =
      [ToastError "Erro na alteração de quantidade do produto"] /\
    count_calls is_ApiGetStock (world_of two_runners) w' = 0%nat.
Proof.
  refine (updateProductAmount_unknown_product JSON_stringify 9 2 (server 3)
            (world_of two_runners) _ _).
  - lia.
  - simpl. intros Hin%list_elem_of_singleton. discriminate.
Defined.

(** updateProductAmount({ productId: 5, amount: 4 }) with three in
    stock. *)
Lemma updateProductAmount_out_of_stock_witness :
  exists w',
    call JSON_stringify (UpdateProductAmount 5 4) (server 3) (world_of two_runners)
    = (Normal tt, w') /\
    state w' = two_runners /\
    localStorage w' = ∅ /\
    emitted (world_of two_runners) w' =
      [ApiGetStock 5; ToastError "Quantidade solicitada fora de estoque"] /\
    count_calls is_SetItem (world_of two_runners) w' = 0%nat /\
    count_calls is_SetCart (world_of two_runners) w' = 0%nat.
Proof.
  refine (updateProductAmount_out_of_stock JSON_stringify 5 4 (server 3)
            (world_of two_runners) {| stock_id := 5; stock_amount := 3 |} _ _ _ _).
  - simpl. apply elem_of_cons. by left.
  - lia.
  - reflexivity.
  - simpl. lia.
Defined.

(** addProduct(5) with three in stock and one in the cart. *)
Lemma addProduct_within_stock_witness :
  Forall (fun product => id product = 5 -> amount product <= 3)
    (state (exec (call JSON_stringify (AddProduct 5)) (server 3)
              (world_of one_runner))).
Proof.
  apply Forall_forall.
  refine (addProduct_within_stock JSON_stringify 5 (server 3) (world_of one_runner)
            {| stock_id := 5; stock_amount := 3 |} _ _ _ eq_refl _).
  - unfold ids_unique. simpl. apply NoDup_singleton.
  - reflexivity.
  - apply Exists_exists. exists (SetCart two_runners).
    split; [|reflexivity].
    do 2 (apply elem_of_cons; right). apply elem_of_cons. by left.
Defined.

(** updateProductAmount({ productId: 7, amount: 3 }) with three in
    stock. *)
Lemma updateProductAmount_within_stock_witness :
  1 <= 3 <= 3 /\
  forall product,
    product ∈ state (exec (call JSON_stringify (UpdateProductAmount 7 3)) (server 3)
                       (world_of both)) ->
    id product = 7 ->
    amount product = 3.
Proof.
  refine (updateProductAmount_within_stock JSON_stringify 7 3 (server 3)
            (world_of both) {| stock_id := 7; stock_amount := 3 |} _ _ eq_refl _).
  - reflexivity.
  - apply Exists_exists.
    eexists (SetCart _). split; [|reflexivity].
    do 2 (apply elem_of_cons; right). apply elem_of_cons. by left.
Defined.

(** What another part of the page keeps in the store survives
    addProduct(5). *)
Lemma other_keys_untouched_witness :
  localStorage
    (exec (call JSON_stringify (AddProduct 5)) (server 3)
       {| state := []; localStorage := {[ "theme"%string := "dark"%string ]};
          trace := [] |})
    !! "theme"%string
  = ({[ "theme"%string := "dark"%string ]} : gmap string string) !! "theme"%string.
Proof.
  refine (other_keys_untouched JSON_stringify (AddProduct 5) (server 3)
            {| state := []; localStorage := {[ "theme"%string := "dark"%string ]};
               trace := [] |} "theme" _).
  discriminate.
Defined.

(** From the render of the empty cart, addProduct(5) and then
    addProduct(7): the sneaker replaces the runner. *)
Lemma addProduct_same_render_overwrites_witness :
  state (exec (addProduct JSON_stringify [] 5) (server 3) empty_world)
  = [{| id := 5; amount := 1; meta := runner |}] /\
  state (exec (addProduct JSON_stringify [] 7) (server 3)
           (exec (addProduct JSON_stringify [] 5) (server 3) empty_world))
  = [{| id := 7; amount := 1; meta := sneaker |}] /\
  localStorage (exec (addProduct JSON_stringify [] 7) (server 3)
                  (exec (addProduct JSON_stringify [] 5) (server 3) empty_world))
    !! LOCAL_STORAGE_CART_KEY
  = Some (JSON_stringify [{| id := 7; amount := 1; meta := sneaker |}]).
Proof.
  refine (addProduct_same_render_overwrites JSON_stringify [] 5 7
            (server 3) (server 3) empty_world
            {| stock_id := 5; stock_amount := 3 |}
            {| stock_id := 7; stock_amount := 3 |}
            {| data_id := 5; data_meta := runner |}
            {| data_id := 7; data_meta := sneaker |} _ _ _ _ _ _ _ _
            _ _ eq_refl eq_refl).
  - apply not_elem_of_nil.
  - apply not_elem_of_nil.
  - reflexivity.
  - simpl. lia.
  - reflexivity.
  - reflexivity.
  - simpl. lia.
  - reflexivity.
Defined.

(** From the render of both shoes, the runners are set to 3 and then
    the sneakers to 2: both amounts are in the final cart. *)
Lemma updateProductAmount_same_render_composes_witness :
  state (exec (updateProductAmount JSON_stringify both 7 2) (server 3)
           (exec (updateProductAmount JSON_stringify both 5 3) (server 3)
              (world_of both)))
  = [{| id := 5; amount := 3; meta := runner |};
     {| id := 7; amount := 2; meta := sneaker |}] /\
  (5 <> 7 ->
   forall product,
     product ∈ state (exec (updateProductAmount JSON_stringify both 7 2) (server 3)
                        (exec (updateProductAmount JSON_stringify both 5 3)
                           (server 3) (world_of both))) ->
     id product = 5 -> amount product = 3).
Proof.
  refine (updateProductAmount_same_render_composes JSON_stringify both 5 7 3 2
            (server 3) (server 3) (world_of both)
            {| stock_id := 5; stock_amount := 3 |}
            {| stock_id := 7; stock_amount := 3 |} _ _ _ _ _ _ _ _
            _ _ eq_refl eq_refl).
  - simpl. apply elem_of_cons. by left.
  - simpl. apply elem_of_cons. right. apply elem_of_cons. by left.
  - lia.
  - lia.
  - reflexivity.
  - simpl. lia.
  - reflexivity.
  - simpl. lia.
Defined.

(** addProduct(7) and then removeProduct(7) on a cart of runners. *)
Lemma addProduct_then_removeProduct_witness :
  state (exec (call JSON_stringify (RemoveProduct 7)) offline
           (exec (call JSON_stringify (AddProduct 7)) (server 3)
              (world_of two_runners)))
  = two_runners /\
  localStorage (exec (call JSON_stringify (RemoveProduct 7)) offline
                  (exec (call JSON_stringify (AddProduct 7)) (server 3)
                     (world_of two_runners)))
    !! LOCAL_STORAGE_CART_KEY
  = Some (JSON_stringify two_runners).
Proof.
  refine (addProduct_then_removeProduct JSON_stringify 7 (server 3) offline
            (world_of two_runners)
            {| stock_id := 7; stock_amount := 3 |}
            {| data_id := 7; data_meta := sneaker |} _ _ _ _ _
            _ _ eq_refl eq_refl).
  - simpl. intros Hin%list_elem_of_singleton. discriminate.
  - reflexivity.
  - simpl. lia.
  - reflexivity.
  - reflexivity.
Defined.

(** updateProductAmount({ productId: 5, amount: 3 }), twice. *)
Lemma updateProductAmount_idempotent_witness :
  state (exec (call JSON_stringify (UpdateProductAmount 5 3)) (server 4)
           (exec (call JSON_stringify (UpdateProductAmount 5 3)) (server 3)
              (world_of both)))
  = state (exec (call JSON_stringify (UpdateProductAmount 5 3)) (server 3)
             (world_of both)) /\
  localStorage (exec (call JSON_stringify (UpdateProductAmount 5 3)) (server 4)
                  (exec (call JSON_stringify (UpdateProductAmount 5 3)) (server 3)
                     (world_of both)))
  = localStorage (exec (call JSON_stringify (UpdateProductAmount 5 3)) (server 3)
                    (world_of both)).
Proof.
  refine (updateProductAmount_idempotent JSON_stringify 5 3 (server 3) (server 4)
            (world_of both)
            {| stock_id := 5; stock_amount := 3 |}
            {| stock_id := 5; stock_amount := 4 |} _ _ _ _ _ _
            _ _ eq_refl eq_refl).
  - simpl. apply elem_of_cons. by left.
  - lia.
  - reflexivity.
  - simpl. lia.
  - reflexivity.
  - simpl. lia.
Defined.

(** addProduct(5) on both shoes: the sneaker is as it was. *)
Lemma other_products_untouched_witness :
  List.filter (fun product => negb (id product =? 5))
    (state (exec (call JSON_stringify (AddProduct 5)) (server 3) (world_of both)))
  = [{| id := 7; amount := 1; meta := sneaker |}].
Proof.
  refine (other_products_untouched JSON_stringify (AddProduct 5) (server 3)
            (world_of both) _).
  reflexivity.
Defined.

(** Is there stock for three runners when there are exactly three? *)
Lemma checkStockAvailability_answers_witness :
  exists available w',
    checkStockAvailability 5 3 (server 3) (world_of two_runners)
    = (Normal available, w') /\
    (available = true <-> 3 <= 3) /\
    state w' = two_runners /\
    localStorage w' = ∅ /\
    emitted (world_of two_runners) w' = [ApiGetStock 5] /\
    forall smaller,
      smaller <= 3 ->
      available = true ->
      fst (checkStockAvailability 5 smaller (server 3) (world_of two_runners))
      = Normal true.
Proof.
  refine (checkStockAvailability_answers 5 3 (server 3) (world_of two_runners)
            {| stock_id := 5; stock_amount := 3 |} _).
  reflexivity.
Defined.

(** addProduct(7) on a cart of runners asks the catalog for product 7. *)
Lemma product_requested_only_when_new_witness :
  AddProduct 7 = AddProduct 7 /\
  (7 ∉ map id two_runners) /\
  exists stock,
    get_stock (server 3) 7 = Some stock /\ stock_amount stock >= 1.
Proof.
  refine (product_requested_only_when_new JSON_stringify (AddProduct 7) (server 3)
            (world_of two_runners) 7 _).
  apply elem_of_cons. right. apply elem_of_cons. by left.
Defined.

(** The render shows both shoes, the state has only the sneaker left:
    updateProductAmount({ productId: 5, amount: 3 }). *)
Lemma updateProductAmount_after_removal_witness :
  exists w',
    updateProductAmount JSON_stringify both 5 3 (server 3) (world_of one_sneaker)
    = (Normal tt, w') /\
    state w' = one_sneaker /\
    localStorage w' =
      <[LOCAL_STORAGE_CART_KEY := JSON_stringify one_sneaker]> ∅ /\
    emitted (world_of one_sneaker) w' =
      [ApiGetStock 5;
       SetItem LOCAL_STORAGE_CART_KEY (JSON_stringify one_sneaker);
       SetCart one_sneaker] /\
    count_calls is_ToastError (world_of one_sneaker) w' = 0%nat.
Proof.
  refine (updateProductAmount_after_removal JSON_stringify both 5 3 (server 3)
            (world_of one_sneaker) {| stock_id := 5; stock_amount := 3 |}
            _ _ _ _ _).
  - simpl. apply elem_of_cons. by left.
  - simpl. intros Hin%list_elem_of_singleton. discriminate.
  - lia.
  - reflexivity.
  - simpl. lia.
Defined.

(** addProduct(5) on both shoes: the runners, first in the cart, stay
    first and are one more. *)
Lemma addProduct_keeps_products_witness :
  (exists product',
     state (exec (call JSON_stringify (AddProduct 5)) (server 3) (world_of both))
       !! 0%nat = Some product' /\
     id product' = 5 /\
     meta product' = runner /\
     (amount product' = 2 \/ amount product' = number_add 2 1) /\
     (- 2 ^ 53 < 2 < 2 ^ 53 -> 2 <= amount product' <= 2 + 1)) /\
  (2 <= length (state (exec (call JSON_stringify (AddProduct 5)) (server 3)
                         (world_of both)))
   <= 3)%nat.
Proof.
  refine (addProduct_keeps_products JSON_stringify 5 (server 3) (world_of both)
            0%nat {| id := 5; amount := 2; meta := runner |} _).
  reflexivity.
Defined.

(** Once addProduct(5) has stored the cart, removeProduct(5) keeps the
    store current. *)
Lemma snapshot_stays_current_witness :
  snapshot_current JSON_stringify
    (exec (call JSON_stringify (RemoveProduct 5)) offline
       (exec (call JSON_stringify (AddProduct 5)) (server 3) empty_world)).
Proof.
  refine (snapshot_stays_current JSON_stringify (RemoveProduct 5) offline
            (exec (call JSON_stringify (AddProduct 5)) (server 3) empty_world) _).
  reflexivity.
Defined.

(** From the empty store, addProduct(5): a reload gives the runner. *)
Lemma reload_gives_current_cart_witness :
  initialCart JSON_parse
    (localStorage (exec (call JSON_stringify (AddProduct 5)) (server 3) empty_world))
  = Normal
      (ProductArray
         (state (exec (call JSON_stringify (AddProduct 5)) (server 3) empty_world))).
Proof.
  refine (reload_gives_current_cart JSON_stringify JSON_parse (AddProduct 5)
            (server 3) empty_world _ _).
  - intros cart. split; [apply JSON_stringify_truthy | apply JSON_parse_stringify].
  - reflexivity.
Defined.

(** The render shows one runner, the state has two: addProduct(5),
    removeProduct(5) and updateProductAmount({ productId: 5, amount: 3 })
    from that render. *)
Lemma stale_calls_keep_invariants_witness :
  invariants
    (state (exec (addProduct JSON_stringify one_runner 5) (server 3)
              (world_of two_runners))) /\
  invariants
    (state (exec (removeProduct JSON_stringify one_runner 5) (server 3)
              (world_of two_runners))) /\
  invariants
    (state (exec (updateProductAmount JSON_stringify one_runner 5 3) (server 3)
              (world_of two_runners))).
Proof.
  refine (stale_calls_keep_invariants JSON_stringify one_runner 5 3 (server 3)
            (world_of two_runners) _ _ _).
  - split; [apply Forall_singleton; simpl; lia|].
    unfold ids_unique. simpl. apply NoDup_singleton.
  - split; [apply Forall_singleton; simpl; lia|].
    unfold ids_unique. simpl. apply NoDup_singleton.
  - reflexivity.
Defined.

(** *** Amounts where adding 1 is not exact *)

(** C3 fails at the amount 2^53: the stock answers 2^53 + 2, at least
    2^53 + 1, and [addProduct] publishes the cart with the amount still
    at 2^53, because 2^53 + 1 is 2^53 in JavaScript. *)
Lemma addProduct_increments_inexact :
  ids_unique pallet /\
  get_stock (server (2 ^ 53 + 2)) 5
  = Some {| stock_id := 5; stock_amount := 2 ^ 53 + 2 |} /\
  2 ^ 53 + 2 >= 2 ^ 53 + 1 /\
  exists w',
    call JSON_stringify (AddProduct 5) (server (2 ^ 53 + 2)) (world_of pallet)
    = (Normal tt, w') /\
    state w' = [{| id := 5; amount := 2 ^ 53; meta := runner |}] /\
    state w' <> [{| id := 5; amount := 2 ^ 53 + 1; meta := runner |}] /\
    emitted (world_of pallet) w' =
      [ApiGetStock 5;
       SetItem LOCAL_STORAGE_CART_KEY (JSON_stringify pallet);
       SetCart pallet].
Proof.
  split_and!.
  - unfold ids_unique. simpl. apply NoDup_singleton.
  - reflexivity.
  - lia.
  - eexists. split; [reflexivity|]. split_and!; [reflexivity | | reflexivity].
    simpl. intros Heq. discriminate Heq.
Qed.

(** C4 fails at the amount 2^53: the stock answers 2^53, less than
    2^53 + 1, and [addProduct] does not refuse: it writes and publishes
    the cart and notifies nobody, because it compares the stock with
    2^53 + 1 as JavaScript computes it, which is 2^53. *)
Lemma addProduct_below_stock_commits :
  get_stock (server (2 ^ 53)) 5
  = Some {| stock_id := 5; stock_amount := 2 ^ 53 |} /\
  find (fun product => id product =? 5) pallet
  = Some {| id := 5; amount := 2 ^ 53; meta := runner |} /\
  2 ^ 53 < 2 ^ 53 + 1 /\
  exists w',
    call JSON_stringify (AddProduct 5) (server (2 ^ 53)) (world_of pallet)
    = (Normal tt, w') /\
    emitted (world_of pallet) w' =
      [ApiGetStock 5;
       SetItem LOCAL_STORAGE_CART_KEY (JSON_stringify pallet);
       SetCart pallet] /\
    count_calls is_ToastError (world_of pallet) w' = 0%nat /\
    count_calls is_SetItem (world_of pallet) w' = 1%nat /\
    count_calls is_SetCart (world_of pallet) w' = 1%nat.
Proof.
  split_and!; [reflexivity | reflexivity | lia |].
  eexists. split; [reflexivity|]. split_and!; reflexivity.
Qed.

End FurtherScenarios.
